(** * SmartRace dual relay pulse controller: a shallow embedding of
    [smartrace_relay.py] and the properties of its event-to-actuation core.

    The program is a set of Python threads that share module-level globals:
    the HTTP handler of the SmartRace data port ([SmartRaceDataHandler.do_POST]),
    the timer monitor ([monitor_vsc_timer]), one short-lived thread per relay
    pulse ([pulse_relay]) and the handler of the web port ([WebHandler.do_POST]).

    Python values are modelled as they are at run time: floats are IEEE
    binary64 (Rocq's primitive floats, the very same arithmetic), integers
    are unbounded, dictionaries are finite maps with string keys.  Code that
    touches the globals is written in a small resumption monad [prog] whose
    atomic actions are the single reads and writes of the globals; the same
    definition is run to completion ([exec]) for sequential reasoning and
    stepped one action at a time ([step_thread]) under an explicit schedule
    for the interleavings of the threads.  Of the text written to stdout,
    what is modelled is what can make a handler fail: the messages of the data
    port and of [connect_to_wifi] that print a value of the request, which
    the standard output, UTF-8 and strict, refuses when it holds a lone
    surrogate.  Every other message, those of [load_config] and [save_config]
    included, is taken to be printed. *)

From Stdlib Require Import ZArith Floats Bool List.
From stdpp Require Import base option list gmap strings.

Set Warnings "-inexact-float,-register-all".
#[local] Open Scope Z_scope.

(** ** Python values *)

Inductive pyval : Type :=
| PNone
| PBool (b : bool)
| PInt (z : Z)
| PFloat (f : float)
| PStr (s : string)
| PList (l : list pyval)
| PDict (d : gmap string pyval).

Inductive exn : Type :=
| AttributeError | TypeError | ValueError | OverflowError | IndexError
| RuntimeError | OSError | UnicodeEncodeError.

(** The outcome of an expression that may raise. *)
Inductive result (A : Type) : Type :=
| Ok (a : A)
| Raised (e : exn).
Arguments Ok {A} a.
Arguments Raised {A} e.

#[global] Instance result_ret : MRet result := @Ok.
#[global] Instance result_bind : MBind result := λ A B f r,
  match r with Ok a => f a | Raised e => Raised e end.

(** [bool(v)]: Python's truth value. *)
Definition truthy (v : pyval) : bool :=
  match v with
  | PNone => false
  | PBool b => b
  | PInt z => negb (z =? 0)
  | PFloat f => negb (f =? 0)%float
  | PStr s => negb (String.eqb s "")
  | PList l => match l with [] => false | _ => true end
  | PDict d => negb (Nat.eqb (size d) 0)
  end.

(** [v.get(k, default)]: only a dict has the method. *)
Definition py_get (v : pyval) (k : string) (default : pyval) : result pyval :=
  match v with
  | PDict d => Ok (from_option id default (d !! k))
  | _ => Raised AttributeError
  end.

(** [v in [s1, s2, ...]] for a list of string literals: [==] against each. *)
Definition py_in (v : pyval) (l : list string) : bool :=
  match v with
  | PStr s => existsb (String.eqb s) l
  | _ => false
  end.

(** Conversion of a Python int to a float, as [float + int] and
    [time.sleep(int)] perform it: correctly rounded, [OverflowError] when the
    integer is beyond the range of a double. *)
Definition float_of_int (z : Z) : result float :=
  let f := SF2Prim (binary_normalize prec emax z 0 false) in
  if is_infinity f then Raised OverflowError else Ok f.

(** The float a number denotes in arithmetic with a float ([bool] is a
    subclass of [int]); anything else is a [TypeError]. *)
Definition as_float (v : pyval) : result float :=
  match v with
  | PFloat f => Ok f
  | PInt z => float_of_int z
  | PBool b => Ok (if b then 1 else 0)%float
  | _ => Raised TypeError
  end.

(** [t + v] for a float [t]. *)
Definition float_add (t : float) (v : pyval) : result float :=
  f ← as_float v; Ok (t + f)%float.

(** ** Strings and what [print] makes of them

    A [str] is held as its UTF-8 bytes.  [json.loads] returns a lone
    surrogate for an escape such as [\ud800]; such a code point is held as the
    three bytes that the [surrogatepass] handler gives it: the byte [ED]
    followed by a byte from [A0] up.  No other character has [ED] followed by
    such a byte in its encoding or across two encodings. *)
Fixpoint has_surrogate (s : string) : bool :=
  match s with
  | EmptyString => false
  | String a rest =>
      match rest with
      | String b _ =>
          (Ascii.nat_of_ascii a =? 237)%nat && (160 <=? Ascii.nat_of_ascii b)%nat
          || has_surrogate rest
      | EmptyString => false
      end
  end.

(** [print(f"...{v}...")] on the standard output, which is UTF-8 and
    strict: the text of a [str] is the string itself, and a surrogate in it is
    refused with [UnicodeEncodeError]; the text of any other value is made by
    [str], which writes the strings inside a list or a dict with [repr], their
    surrogates escaped. *)
Definition print_fstring (v : pyval) : result unit :=
  match v with
  | PStr s => if has_surrogate s then Raised UnicodeEncodeError else Ok tt
  | _ => Ok tt
  end.

(** ** Module-level configuration (lines 33-37) *)

Definition RELAY1_PIN : Z := 18.
Definition RELAY2_PIN : Z := 23.

(** ** The shared state: the module globals and the environment *)

(** One [GPIO.output(pin, level)] call, with the time it was issued and
    whether the driver raised. *)
Record gpio_call : Type := GpioCall {
  gc_time : float; gc_pin : Z; gc_level : bool; gc_raised : bool }.

(** One [threading.Thread(target=pulse_relay, args=...)] started by
    [pulse_relay_threaded]. *)
Record thread_args : Type := ThreadArgs {
  th_pin : Z; th_name : string; th_source : string; th_started : float }.

(** An entry of [smartrace_events_log]; the ['time'] key holds the clock
    value rather than its [strftime] rendering. *)
Record event : Type := Event {
  ev_time : float; ev_type : pyval; ev_data : pyval }.

(** What a handler wrote to its client. *)
Record response : Type := Response {
  status : Z; content_type : option string; body : string }.

(** The file at [CONFIG_FILE]: absent, present but failing [open] or
    [json.load], or holding a JSON value. *)
Inductive file : Type :=
| NoFile
| Unreadable
| Content (v : pyval).

Record world : Type := World {
  (* globals, lines 23-50 *)
  GPIO_AVAILABLE : bool;
  relay1_state : bool;
  relay2_state : bool;
  vsc_active : bool;
  vsc_end_time : option float;            (* [None] is Python's [None] *)
  last_smartrace_event : option event;
  smartrace_events_log : list event;
  pulse_duration : pyval;
  relay1_delay : float;
  (* environment *)
  clock : float;                          (* [time.time()] *)
  config_file : file;
  fs_writable : bool;                     (* does [open(CONFIG_FILE, 'w')] succeed *)
  gpio_raises : Z → bool → bool;          (* does the driver raise on this call *)
  gpio_calls : list gpio_call;            (* calls issued so far *)
  threads_started : list thread_args;     (* pulse threads started so far *)
  responses : list response;              (* responses sent so far *)
  commands_run : list (list string)       (* command lines given to [subprocess.run] *)
}.

Definition set_relay1_state (v : bool) (w : world) : world :=
  World (GPIO_AVAILABLE w) v (relay2_state w) (vsc_active w) (vsc_end_time w)
    (last_smartrace_event w) (smartrace_events_log w) (pulse_duration w)
    (relay1_delay w) (clock w) (config_file w) (fs_writable w) (gpio_raises w)
    (gpio_calls w) (threads_started w) (responses w) (commands_run w).

Definition set_relay2_state (v : bool) (w : world) : world :=
  World (GPIO_AVAILABLE w) (relay1_state w) v (vsc_active w) (vsc_end_time w)
    (last_smartrace_event w) (smartrace_events_log w) (pulse_duration w)
    (relay1_delay w) (clock w) (config_file w) (fs_writable w) (gpio_raises w)
    (gpio_calls w) (threads_started w) (responses w) (commands_run w).

Definition set_vsc_active (v : bool) (w : world) : world :=
  World (GPIO_AVAILABLE w) (relay1_state w) (relay2_state w) v (vsc_end_time w)
    (last_smartrace_event w) (smartrace_events_log w) (pulse_duration w)
    (relay1_delay w) (clock w) (config_file w) (fs_writable w) (gpio_raises w)
    (gpio_calls w) (threads_started w) (responses w) (commands_run w).

Definition set_vsc_end_time (v : option float) (w : world) : world :=
  World (GPIO_AVAILABLE w) (relay1_state w) (relay2_state w) (vsc_active w) v
    (last_smartrace_event w) (smartrace_events_log w) (pulse_duration w)
    (relay1_delay w) (clock w) (config_file w) (fs_writable w) (gpio_raises w)
    (gpio_calls w) (threads_started w) (responses w) (commands_run w).

Definition set_last_smartrace_event (v : option event) (w : world) : world :=
  World (GPIO_AVAILABLE w) (relay1_state w) (relay2_state w) (vsc_active w)
    (vsc_end_time w) v (smartrace_events_log w) (pulse_duration w)
    (relay1_delay w) (clock w) (config_file w) (fs_writable w) (gpio_raises w)
    (gpio_calls w) (threads_started w) (responses w) (commands_run w).

Definition set_smartrace_events_log (v : list event) (w : world) : world :=
  World (GPIO_AVAILABLE w) (relay1_state w) (relay2_state w) (vsc_active w)
    (vsc_end_time w) (last_smartrace_event w) v (pulse_duration w)
    (relay1_delay w) (clock w) (config_file w) (fs_writable w) (gpio_raises w)
    (gpio_calls w) (threads_started w) (responses w) (commands_run w).

Definition set_pulse_duration (v : pyval) (w : world) : world :=
  World (GPIO_AVAILABLE w) (relay1_state w) (relay2_state w) (vsc_active w)
    (vsc_end_time w) (last_smartrace_event w) (smartrace_events_log w) v
    (relay1_delay w) (clock w) (config_file w) (fs_writable w) (gpio_raises w)
    (gpio_calls w) (threads_started w) (responses w) (commands_run w).

Definition set_relay1_delay (v : float) (w : world) : world :=
  World (GPIO_AVAILABLE w) (relay1_state w) (relay2_state w) (vsc_active w)
    (vsc_end_time w) (last_smartrace_event w) (smartrace_events_log w)
    (pulse_duration w) v (clock w) (config_file w) (fs_writable w)
    (gpio_raises w) (gpio_calls w) (threads_started w) (responses w) (commands_run w).

Definition set_clock (v : float) (w : world) : world :=
  World (GPIO_AVAILABLE w) (relay1_state w) (relay2_state w) (vsc_active w)
    (vsc_end_time w) (last_smartrace_event w) (smartrace_events_log w)
    (pulse_duration w) (relay1_delay w) v (config_file w) (fs_writable w)
    (gpio_raises w) (gpio_calls w) (threads_started w) (responses w) (commands_run w).

Definition set_config_file (v : file) (w : world) : world :=
  World (GPIO_AVAILABLE w) (relay1_state w) (relay2_state w) (vsc_active w)
    (vsc_end_time w) (last_smartrace_event w) (smartrace_events_log w)
    (pulse_duration w) (relay1_delay w) (clock w) v (fs_writable w)
    (gpio_raises w) (gpio_calls w) (threads_started w) (responses w) (commands_run w).

Definition set_gpio_calls (v : list gpio_call) (w : world) : world :=
  World (GPIO_AVAILABLE w) (relay1_state w) (relay2_state w) (vsc_active w)
    (vsc_end_time w) (last_smartrace_event w) (smartrace_events_log w)
    (pulse_duration w) (relay1_delay w) (clock w) (config_file w)
    (fs_writable w) (gpio_raises w) v (threads_started w) (responses w) (commands_run w).

Definition set_threads_started (v : list thread_args) (w : world) : world :=
  World (GPIO_AVAILABLE w) (relay1_state w) (relay2_state w) (vsc_active w)
    (vsc_end_time w) (last_smartrace_event w) (smartrace_events_log w)
    (pulse_duration w) (relay1_delay w) (clock w) (config_file w)
    (fs_writable w) (gpio_raises w) (gpio_calls w) v (responses w) (commands_run w).

Definition set_responses (v : list response) (w : world) : world :=
  World (GPIO_AVAILABLE w) (relay1_state w) (relay2_state w) (vsc_active w)
    (vsc_end_time w) (last_smartrace_event w) (smartrace_events_log w)
    (pulse_duration w) (relay1_delay w) (clock w) (config_file w)
    (fs_writable w) (gpio_raises w) (gpio_calls w) (threads_started w) v
    (commands_run w).

Definition set_commands_run (v : list (list string)) (w : world) : world :=
  World (GPIO_AVAILABLE w) (relay1_state w) (relay2_state w) (vsc_active w)
    (vsc_end_time w) (last_smartrace_event w) (smartrace_events_log w)
    (pulse_duration w) (relay1_delay w) (clock w) (config_file w)
    (fs_writable w) (gpio_raises w) (gpio_calls w) (threads_started w)
    (responses w) v.

(** The globals as the module body leaves them (lines 40-50), in an
    environment given by the caller. *)
Definition initial_world (gpio : bool) (raises : Z → bool → bool)
    (f : file) (writable : bool) (t0 : float) : world :=
  World gpio false false false None None [] (PFloat 0.5) 5.0%float
    t0 f writable raises [] [] [] [].

(** ** Programs over the shared state

    [Act u k] is one uninterruptible action: the state becomes [u w] and the
    program goes on as [k w], [w] being the state the action found.
    [Sleep d k] is [time.sleep(d)] followed by [k]. *)

Inductive prog (A : Type) : Type :=
| Ret (a : A)
| Raise (e : exn)
| Act (u : world → world) (k : world → prog A)
| Sleep (d : float) (k : prog A).
Arguments Ret {A} a.
Arguments Raise {A} e.
Arguments Act {A} u k.
Arguments Sleep {A} d k.

Fixpoint bind {A B : Type} (p : prog A) (g : A → prog B) : prog B :=
  match p with
  | Ret a => g a
  | Raise e => Raise e
  | Act u k => Act u (λ w, bind (k w) g)
  | Sleep d k => Sleep d (bind k g)
  end.

#[global] Instance prog_ret : MRet prog := @Ret.
#[global] Instance prog_bind : MBind prog := λ A B g p, bind p g.

(** [try: p  except Exception as e: h e]. *)
Fixpoint try_except {A : Type} (p : prog A) (h : exn → prog A) : prog A :=
  match p with
  | Ret a => Ret a
  | Raise e => h e
  | Act u k => Act u (λ w, try_except (k w) h)
  | Sleep d k => Sleep d (try_except k h)
  end.

Definition lift {A : Type} (r : result A) : prog A :=
  match r with Ok a => Ret a | Raised e => Raise e end.

(** Reading a global, writing a global. *)
Definition read {A : Type} (f : world → A) : prog A := Act id (λ w, Ret (f w)).
Definition write (u : world → world) : prog unit := Act u (λ _, Ret tt).

(** Running a program to completion with no other thread interfering: a
    sleep of [d] seconds moves the clock by [d]. *)
Fixpoint exec {A : Type} (p : prog A) (w : world) : result A * world :=
  match p with
  | Ret a => (Ok a, w)
  | Raise e => (Raised e, w)
  | Act u k => exec (k w) (u w)
  | Sleep d k => exec k (set_clock (clock w + d)%float w)
  end.

Definition run {A : Type} (p : prog A) (w : world) : world := (exec p w).2.

(** The states that such a run goes through: the one that each action or
    sleep leaves, in order. *)
Fixpoint states {A : Type} (p : prog A) (w : world) : list world :=
  match p with
  | Ret _ | Raise _ => []
  | Act u k => u w :: states (k w) (u w)
  | Sleep d k =>
      set_clock (clock w + d)%float w :: states k (set_clock (clock w + d)%float w)
  end.

(** ** Library calls *)

(** [time.time()]. *)
Definition time_time : prog float := read clock.

(** The argument check of [time.sleep(v)]: a number ([TypeError] otherwise)
    that is not negative and not NaN ([ValueError] otherwise).  CPython also
    refuses, with [OverflowError], a wait too long for the platform's clock;
    that bound is not modelled, and no result below lets a wait exceed
    30 seconds where it matters. *)
Definition sleep_arg (v : pyval) : result float :=
  f ← as_float v;
  if (0 <=? f)%float then Ok f else Raised ValueError.

(** [time.sleep(v)]. *)
Definition time_sleep (v : pyval) : prog unit :=
  d ← lift (sleep_arg v); Sleep d (Ret tt).

(** [GPIO.output(pin, level)]: the call is issued; the driver may raise. *)
Definition GPIO_output (pin : Z) (level : bool) : prog unit :=
  Act (λ w, set_gpio_calls
              (gpio_calls w ++ [GpioCall (clock w) pin level (gpio_raises w pin level)]) w)
      (λ w, if gpio_raises w pin level then Raise RuntimeError else Ret tt).

(** [self.send_response(code)], the headers and the body written to the
    client. *)
Definition send (r : response) : prog unit :=
  write (λ w, set_responses (responses w ++ [r]) w).

Definition dquote : string := String (Ascii.ascii_of_nat 34) EmptyString.

(** The bytes [b'{"status":"ok"}'] of line 350. *)
Definition status_ok_body : string :=
  "{" +:+ dquote +:+ "status" +:+ dquote +:+ ":" +:+ dquote +:+ "ok" +:+ dquote +:+ "}".

Definition response_200 : response :=
  Response 200 (Some "application/json") status_ok_body.
Definition response_500 : response := Response 500 None "".
Definition response_302 : response := Response 302 None "".

(** ** [pulse_relay] (lines 98-129) *)

(** Lines 106-109 and 117-120: any pin other than [RELAY1_PIN] updates
    [relay2_state]. *)
Definition set_relay_state (relay_pin : Z) (v : bool) : prog unit :=
  if relay_pin =? RELAY1_PIN then write (set_relay1_state v)
  else write (set_relay2_state v).

Definition pulse_relay (relay_pin : Z) (relay_name source : string) : prog bool :=
  available ← read GPIO_AVAILABLE;
  if available : bool then
    try_except
      (GPIO_output relay_pin true;;
       set_relay_state relay_pin true;;
       d ← read pulse_duration;
       time_sleep d;;
       GPIO_output relay_pin false;;
       set_relay_state relay_pin false;;
       Ret true)
      (λ _, Ret false)
  else Ret true.

(** [pulse_relay_threaded] (lines 131-135): the thread is started and the
    caller goes on; the thread's own steps are those of [pulse_relay]. *)
Definition pulse_relay_threaded (relay_pin : Z) (relay_name source : string)
    : prog unit :=
  write (λ w, set_threads_started
                (threads_started w ++ [ThreadArgs relay_pin relay_name source (clock w)]) w).

(** ** [monitor_vsc_timer] (lines 137-153) *)

(** [current_time >= vsc_end_time]: comparing a float with [None] is a
    [TypeError]. *)
Definition time_ge (current_time : float) (end_time : option float) : result bool :=
  match end_time with
  | Some t => Ok (t <=? current_time)%float
  | None => Raised TypeError
  end.

(** One turn of the [while True] loop. *)
Definition monitor_iteration : prog unit :=
  try_except
    (active ← read vsc_active;
     armed ← (if active : bool then e ← read vsc_end_time; Ret (bool_decide (is_Some e))
              else Ret false);
     (if armed : bool then
        current_time ← time_time;
        e ← read vsc_end_time;
        expired ← lift (time_ge current_time e);
        if expired : bool then
          pulse_relay_threaded RELAY2_PIN "Relay 2" "VSC Timer End";;
          write (set_vsc_active false);;
          write (set_vsc_end_time None)
        else Ret tt
      else Ret tt);;
     Sleep 0.1 (Ret tt))
    (λ _, Sleep 1 (Ret tt)).

(** The first [n] turns of the loop. *)
Fixpoint monitor_vsc_timer (n : nat) : prog unit :=
  match n with
  | O => Ret tt
  | S n => monitor_iteration;; monitor_vsc_timer n
  end.

(** ** [load_config] and [save_config] (lines 52-77) *)

(** [load_config] declares only [pulse_duration] global, so line 60 binds a
    local [relay1_delay] and the global keeps its value. *)
Definition load_config : prog unit :=
  try_except
    (f ← read config_file;
     match f with
     | NoFile => Ret tt
     | Unreadable => Raise OSError
     | Content config =>
         pd ← lift (py_get config "pulse_duration" (PFloat 0.5));
         write (set_pulse_duration pd);;
         local_relay1_delay ← lift (py_get config "relay1_delay" (PFloat 5.0));
         Ret tt
     end)
    (λ _, write (set_pulse_duration (PFloat 0.5))).

(** The dict that [save_config] dumps. *)
Definition config_record (pd : pyval) (delay : float) : pyval :=
  PDict (<["pulse_duration" := pd]> (<["relay1_delay" := PFloat delay]> ∅)).

Definition save_config : prog unit :=
  try_except
    (pd ← read pulse_duration;
     delay ← read relay1_delay;
     Act (λ w, if fs_writable w then set_config_file (Content (config_record pd delay)) w
               else w)
         (λ w, if fs_writable w then Ret tt else Raise OSError))
    (λ _, Ret tt).

(** ** [SmartRaceDataHandler] (lines 274-360) *)

(** What lines 281-290 make of the request: [int(Content-Length)], the read,
    the UTF-8 decoding or [json.loads] raise, or [json.loads] returns a
    value. *)
Inductive request : Type :=
| Malformed (e : exn)
| Payload (data : pyval).

Definition json_loads (r : request) : result pyval :=
  match r with
  | Malformed e => Raised e
  | Payload data => Ok data
  end.

(** The event names of lines 317 and 339. *)
Definition VSC_START_EVENTS : list string :=
  ["race.vsc_deployed"; "vscDeployed"; "vsc_deployed"; "vsc_started"; "VSC_DEPLOYED"].
Definition VSC_END_EVENTS : list string :=
  ["race.vsc_retracted"; "vsc_Withdrawn"; "vsc_withdrawn"; "vscEnded"; "vsc_ended";
   "VSC_WITHDRAWN"].

(** Lines 297-301. *)
Definition event_type_of (data : pyval) : result pyval :=
  event_type ← py_get data "event_type" (PStr "");
  if truthy event_type then Ok event_type else py_get data "type" (PStr "").

(** Lines 318-322: the value bound to [duration]. *)
Definition vsc_duration (data : pyval) : result pyval :=
  ev ← py_get data "event" (PDict ∅);
  vsc_data ← py_get ev "data" (PDict ∅);
  vsc_data ← (if truthy vsc_data then Ok vsc_data else py_get data "data" (PDict ∅));
  py_get vsc_data "duration" (PInt 60).

(** Lines 309-311. *)
Definition log_event (ev : event) : prog unit :=
  write (λ w, set_smartrace_events_log (smartrace_events_log w ++ [ev]) w);;
  n ← read (λ w, length (smartrace_events_log w));
  if (100 <? n)%nat then write (λ w, set_smartrace_events_log (tail (smartrace_events_log w)) w)
  else Ret tt.

Module SmartRaceDataHandler.
Section Platform.

(** One library function is taken as given: whether
    [datetime.fromtimestamp] raises on a timestamp (NaN, the infinities and
    years outside the platform's range do). *)
Variable fromtimestamp_raises : float → bool.

Definition fromtimestamp (t : float) : result unit :=
  if fromtimestamp_raises t then Raised ValueError else Ok tt.

(** Lines 317-336, the branch of a start event. *)
Definition vsc_deployed (data : pyval) : prog unit :=
  duration ← lift (vsc_duration data);
  lift (print_fstring duration);;
  delay ← read relay1_delay;
  time_sleep (PFloat delay);;
  pulse_relay_threaded RELAY1_PIN "Relay 1" "VSC Start";;
  write (set_vsc_active true);;
  now ← time_time;
  end_time ← lift (float_add now duration);
  write (set_vsc_end_time (Some end_time));;
  e ← read vsc_end_time;
  lift (from_option fromtimestamp (Raised TypeError) e).

(** Lines 339-343, the branch of a withdraw event. *)
Definition vsc_withdrawn : prog unit :=
  pulse_relay_threaded RELAY2_PIN "Relay 2" "VSC Manual Retract";;
  write (set_vsc_active false);;
  write (set_vsc_end_time None).

Definition do_POST (r : request) : prog unit :=
  try_except
    (data ← lift (json_loads r);
     event_type ← lift (event_type_of data);
     received ← time_time;
     let ev := Event received event_type data in
     write (set_last_smartrace_event (Some ev));;
     log_event ev;;
     lift (print_fstring event_type);;
     (if py_in event_type VSC_START_EVENTS then vsc_deployed data
      else if py_in event_type VSC_END_EVENTS then vsc_withdrawn
      else Ret tt);;
     send response_200)
    (λ _, send response_500).

End Platform.
End SmartRaceDataHandler.

(** ** [connect_to_wifi] (lines 227-272) *)

(** What [subprocess.run] returns with [capture_output=True, text=True]. *)
Record completed : Type := Completed {
  returncode : Z; stdout : string; stderr : string }.

(** What the network side takes as given: the outcome of [subprocess.run] on
    a command line (the completed process, or the exception raised, a timeout
    among others), the text [str(e)] of an exception, and the HTML of lines
    914-951, made of the outcome and its message, whose encoding may raise. *)
Record wifi_host : Type := WifiHost {
  subprocess_run : list string → result completed;
  str_of_exn : exn → string;
  connection_page : bool → string → result string }.

(** The command lines of lines 232, 235-241, 247-250, 254-259 and 262. *)
Definition con_delete (ssid : string) : list string :=
  ["sudo"; "nmcli"; "con"; "delete"; ssid].

Definition con_add (ssid : string) : list string :=
  ["sudo"; "nmcli"; "con"; "add"; "type"; "wifi"; "ifname"; "wlan0";
   "con-name"; ssid; "autoconnect"; "yes"; "ssid"; ssid].

Definition con_modify_psk (ssid password : string) : list string :=
  ["sudo"; "nmcli"; "con"; "modify"; ssid;
   "wifi-sec.key-mgmt"; "wpa-psk"; "wifi-sec.psk"; password].

Definition con_modify_ipv4 (ssid static_ip gateway dns : string) : list string :=
  ["sudo"; "nmcli"; "con"; "modify"; ssid; "ipv4.addresses"; static_ip;
   "ipv4.gateway"; gateway; "ipv4.dns"; dns; "ipv4.method"; "manual"].

Definition con_up (ssid : string) : list string :=
  ["sudo"; "nmcli"; "con"; "up"; ssid].

(** [subprocess.run(argv, ...)]: the command is run, then its outcome is
    known. *)
Definition subprocess (h : wifi_host) (argv : list string) : prog completed :=
  Act (λ w, set_commands_run (commands_run w ++ [argv]) w)
      (λ _, lift (subprocess_run h argv)).

Definition connect_to_wifi (h : wifi_host) (ssid password : string) (use_dhcp : bool)
    (static_ip gateway dns : string) : prog (bool * string) :=
  try_except
    (lift (print_fstring (PStr ssid));;
     subprocess h (con_delete ssid);;
     result ← subprocess h (con_add ssid);
     if negb (returncode result =? 0)
     then Ret (false, "Failed to create connection: " +:+ stderr result)
     else
       subprocess h (con_modify_psk ssid password);;
       (if negb use_dhcp
        then subprocess h (con_modify_ipv4 ssid static_ip gateway dns);; Ret tt
        else Ret tt);;
       result ← subprocess h (con_up ssid);
       if returncode result =? 0
       then time_sleep (PInt 2);; Ret (true, "Connected successfully to " +:+ ssid)
       else Ret (false, "Connection failed: " +:+ stderr result))
    (λ e, Ret (false, "Connection error: " +:+ str_of_exn h e)).

(** ** [WebHandler.do_POST] (lines 890-984) *)

(** What lines 895-897 and 965-967 make of the request: [int(Content-Length)],
    the read or the UTF-8 decoding raise, or [parse_qs] returns a dict. *)
Inductive form : Type :=
| NoForm (e : exn)
| Form (params : gmap string (list string)).

Definition parse_qs (f : form) : result (gmap string (list string)) :=
  match f with
  | NoForm e => Raised e
  | Form params => Ok params
  end.

Module WebHandler.
Section Platform.

(** [float] on a string is taken as given. *)
Variable float_of_str : string → result float.
Variable host : wifi_host.

(** [float(v)]. *)
Definition py_float (v : pyval) : result float :=
  match v with
  | PStr s => float_of_str s
  | _ => as_float v
  end.

(** [params.get(k, default)[0]] on the dict that [parse_qs] returns. *)
Definition first_param (params : gmap string (list string)) (k : string)
    (default : list pyval) : result pyval :=
  match from_option (map PStr) default (params !! k) with
  | v :: _ => Ok v
  | [] => Raised IndexError
  end.

(** The same with a string for default, as lines 899-906 have it. *)
Definition first_field (params : gmap string (list string)) (k default : string)
    : result string :=
  match from_option id [default] (params !! k) with
  | v :: _ => Ok v
  | [] => Raised IndexError
  end.

(** Lines 899-952, the branch of [/wifi/connect]: the status line and the
    headers are written before the page is encoded. *)
Definition wifi_connect (params : gmap string (list string)) : prog unit :=
  ssid ← lift (first_field params "ssid" "");
  password ← lift (first_field params "password" "");
  ip_mode ← lift (first_field params "ip_mode" "dhcp");
  let use_dhcp := String.eqb ip_mode "dhcp" in
  static_ip ← lift (first_field params "static_ip" "");
  gateway ← lift (first_field params "gateway" "");
  dns ← lift (first_field params "dns" "8.8.8.8");
  outcome ← connect_to_wifi host ssid password use_dhcp static_ip gateway dns;
  match connection_page host outcome.1 outcome.2 with
  | Ok html => send (Response 200 (Some "text/html") html)
  | Raised e => send (Response 200 (Some "text/html") "");; Raise e
  end.

(** Lines 969-981, the branch of [/set-pulse]. *)
Definition set_pulse (params : gmap string (list string)) : prog unit :=
  new_duration ← lift (v ← first_param params "pulse_duration" [PFloat 0.5]; py_float v);
  new_delay ← lift (v ← first_param params "relay1_delay" [PFloat 5.0]; py_float v);
  (if (0.1 <=? new_duration)%float && (new_duration <=? 5)%float
   then write (set_pulse_duration (PFloat new_duration)) else Ret tt);;
  (if (0 <=? new_delay)%float && (new_delay <=? 30)%float
   then write (set_relay1_delay new_delay) else Ret tt);;
  save_config;;
  send response_302.

(** The handler: any path besides [/wifi/connect] and [/set-pulse] does
    nothing.  An exception is printed and nothing more is sent. *)
Definition do_POST (path : string) (f : form) : prog unit :=
  try_except
    (if String.eqb path "/wifi/connect" then
       params ← lift (parse_qs f); wifi_connect params
     else if String.eqb path "/set-pulse" then
       params ← lift (parse_qs f); set_pulse params
     else Ret tt)
    (λ _, Ret tt).

End Platform.
End WebHandler.

(** ** The data server (lines 989-996)

    [HTTPServer.serve_forever] accepts one connection, runs the handler to
    its end and only then accepts the next: connections are served one at a
    time, in the order of their arrival.  A connection brings a POST request
    whose body arrives in full, which is given to [do_POST]; or a request that
    the library answers itself without calling the handler (501 for any
    method but POST, since the class defines [do_POST] only, 400 for a request
    line that it cannot parse); or a POST request whose body never arrives in
    full while the client keeps the connection open: [rfile.read], on a socket
    without timeout, does not return, and the server goes no further. *)
Inductive connection : Type :=
| Post (r : request)
| Refused (answer : response)
| Stalled.

Fixpoint start_smartrace_data_server (fromtimestamp_raises : float → bool)
    (connections : list connection) : prog unit :=
  match connections with
  | [] => Ret tt
  | Post r :: rest =>
      SmartRaceDataHandler.do_POST fromtimestamp_raises r;;
      start_smartrace_data_server fromtimestamp_raises rest
  | Refused answer :: rest =>
      send answer;; start_smartrace_data_server fromtimestamp_raises rest
  | Stalled :: _ => Ret tt
  end.

(** ** Threads and schedules

    A thread is what is left of its program, and the time before which it
    stays asleep. *)
Record thread : Type := Thread { code : prog unit; wake : option float }.

Definition idle_thread : thread := Thread (Ret tt) None.

Definition finished (th : thread) : bool :=
  match wake th, code th with
  | None, Ret _ | None, Raise _ => true
  | _, _ => false
  end.

(** One action of a thread: a sleeping thread wakes up once the clock has
    reached its wake-up time and does nothing before; [time.sleep] puts the
    thread to sleep; anything else is one atomic action on the shared
    state. *)
Definition step_thread (th : thread) (w : world) : thread * world :=
  match wake th with
  | Some t => if (t <=? clock w)%float then (Thread (code th) None, w) else (th, w)
  | None =>
      match code th with
      | Act u k => (Thread (k w) None, u w)
      | Sleep d k => (Thread k (Some (clock w + d)%float), w)
      | Ret _ | Raise _ => (th, w)
      end
  end.

(** The running program (lines 1047-1055): the shared state, the timer
    thread, the data server with the connections waiting for it, and the
    pulse threads, one per entry of [threads_started]. *)
Record system : Type := System {
  shared : world;
  timer_thread : thread;
  smartrace_thread : thread;
  backlog : list connection;
  pulse_threads : list thread
}.

(** What the scheduler and the environment can do next. *)
Inductive move : Type :=
| Tick (t : float)          (* the clock reaches [t] *)
| Arrive (c : connection)   (* a connection reaches the data port *)
| RunTimer                  (* one action of the timer thread *)
| RunServer                 (* one action of the data server *)
| RunPulse (i : nat).       (* one action of the [i]-th pulse thread *)

Definition pulse_thread (a : thread_args) : thread :=
  Thread (pulse_relay (th_pin a) (th_name a) (th_source a);; Ret tt) None.

(** The threads started by the last action join the pulse threads. *)
Definition spawn (s : system) : system :=
  System (shared s) (timer_thread s) (smartrace_thread s) (backlog s)
    (pulse_threads s ++
       map pulse_thread (drop (length (pulse_threads s)) (threads_started (shared s)))).

Section Scheduler.

Variable fromtimestamp_raises : float → bool.

Definition step (m : move) (s : system) : system :=
  spawn
    match m with
    | Tick t =>
        if (clock (shared s) <=? t)%float
        then System (set_clock t (shared s)) (timer_thread s) (smartrace_thread s)
               (backlog s) (pulse_threads s)
        else s
    | Arrive c =>
        System (shared s) (timer_thread s) (smartrace_thread s) (backlog s ++ [c])
          (pulse_threads s)
    | RunTimer =>
        (* [while True]: a finished turn is followed by the next *)
        let th := if finished (timer_thread s) then Thread monitor_iteration None
                  else timer_thread s in
        let '(th', w') := step_thread th (shared s) in
        System w' th' (smartrace_thread s) (backlog s) (pulse_threads s)
    | RunServer =>
        if finished (smartrace_thread s) then
          match backlog s with
          | Post r :: rest =>
              System (shared s) (timer_thread s)
                (Thread (SmartRaceDataHandler.do_POST fromtimestamp_raises r) None)
                rest (pulse_threads s)
          | Refused answer :: rest =>
              System (shared s) (timer_thread s) (Thread (send answer) None)
                rest (pulse_threads s)
          | Stalled :: _ => s     (* the server is inside [rfile.read] and stays there *)
          | [] => s
          end
        else
          let '(th', w') := step_thread (smartrace_thread s) (shared s) in
          System w' (timer_thread s) th' (backlog s) (pulse_threads s)
    | RunPulse i =>
        match pulse_threads s !! i with
        | Some th =>
            let '(th', w') := step_thread th (shared s) in
            System w' (timer_thread s) (smartrace_thread s) (backlog s)
              (<[i := th']> (pulse_threads s))
        | None => s
        end
    end.

Definition run_schedule (sched : list move) (s : system) : system :=
  foldl (λ s m, step m s) s sched.

End Scheduler.

(** The program as [main] leaves it once its threads are started. *)
Definition boot (w : world) : system :=
  System w idle_thread idle_thread [] [].


(** ** Observations, bounds and sample inputs *)

(** A platform on which [datetime.fromtimestamp] accepts every timestamp. *)
Definition lenient : float → bool := λ _, false.

(** The program right after start-up, at time 0: GPIO present, a driver that
    never raises, no configuration file. *)
Definition idle_world : world :=
  initial_world true (λ _ _, false) NoFile true 0%float.

Definition withdraw_event : pyval :=
  PDict (<["event_type" := PStr "vsc_withdrawn"]> ∅).

Definition start_event (duration : pyval) : pyval :=
  PDict (<["event_type" := PStr "vsc_deployed"]>
         (<["data" := PDict (<["duration" := duration]> ∅)]> ∅)).

(** The energized flag that [pulse_relay] keeps for a pin (lines 106-109). *)
Definition relay_state (relay_pin : Z) (w : world) : bool :=
  if relay_pin =? RELAY1_PIN then relay1_state w else relay2_state w.

(** A driver that raises on every "on" call. *)
Definition on_fails : Z → bool → bool := λ _ level, level.

(** The bounds of the configuration: [pulse_duration] in [0.1, 5.0] and
    [relay1_delay] in [0, 30]. *)
Definition within (lo hi : float) (v : pyval) : bool :=
  match as_float v with
  | Ok f => (lo <=? f)%float && (f <=? hi)%float
  | Raised _ => false
  end.

Definition config_in_bounds (w : world) : bool :=
  within 0.1 5 (pulse_duration w) && within 0 30 (PFloat (relay1_delay w)).

(** [float] on the few literals that the examples post. *)
Definition float_literal (s : string) : result float :=
  if String.eqb s "10" then Ok 10%float
  else if String.eqb s "2.5" then Ok 2.5%float
  else if String.eqb s "12" then Ok 12%float
  else if String.eqb s "45" then Ok 45%float
  else Raised ValueError.

(** The form of a [/set-pulse] request. *)
Definition set_pulse_form (duration delay : string) : gmap string (list string) :=
  <["pulse_duration" := [duration]]> (<["relay1_delay" := [delay]]> ∅).

(** A configuration file as a JSON object with the two keys. *)
Definition config_json (duration delay : pyval) : file :=
  Content (PDict (<["pulse_duration" := duration]> (<["relay1_delay" := delay]> ∅))).

(** The times at which the timer thread, running alone from time [t], makes
    its next [n] tests: each turn ends with [time.sleep(0.1)]. *)
Fixpoint ticks (t : float) (n : nat) : list float :=
  match n with
  | O => []
  | S n => t :: ticks (t + 0.1)%float n
  end.

(** The pulse thread that the timer starts at time [t]. *)
Definition timer_pulse (t : float) : thread_args :=
  ThreadArgs RELAY2_PIN "Relay 2" "VSC Timer End" t.

(** The state once lines 303-311 have recorded an event. *)
Definition logged (ev : event) (w : world) : world :=
  run (log_event ev) (set_last_smartrace_event (Some ev) w).

(** The number of end pulses (Relay 2 pulse threads) started so far. *)
Definition end_pulses (w : world) : nat :=
  length (filter (λ a, th_pin a = RELAY2_PIN) (threads_started w)).

(** The state in which a start event with a duration of 60 s, received at
    time 0 right after start-up, leaves the program: the window is open, with
    its deadline at 65. *)
Definition window_open : world :=
  run (SmartRaceDataHandler.do_POST lenient (Payload (start_event (PInt 60)))) idle_world.

(** A race between the timer and a withdraw event, at the deadline.  The
    timer thread makes its test (four actions: it reads [vsc_active],
    [vsc_end_time], the clock and [vsc_end_time] again) and finds the deadline
    reached; the data server then accepts the withdraw event and runs its
    handler to the end (nine actions); the timer goes on with the three
    actions that follow its test: the pulse and the two assignments. *)
Definition race_schedule : list move :=
  [Tick 65; Arrive (Post (Payload withdraw_event))]
  ++ repeat RunTimer 4 ++ repeat RunServer 9 ++ repeat RunTimer 3.

(** The two pulse threads of that race, run side by side. *)
Definition race_pulses : list move :=
  concat (repeat [RunPulse 1; RunPulse 2] 5) ++ [Tick 65.5]
  ++ concat (repeat [RunPulse 1; RunPulse 2] 3).

(** A withdraw event that arrives at time 1, while the handler of a start
    event received at time 0 is in its delay of 5 s: the data server is given
    the processor three times after the arrival. *)
Definition withdraw_during_delay : list move :=
  [Arrive (Post (Payload (start_event (PInt 60))))] ++ repeat RunServer 7
  ++ [Tick 1; Arrive (Post (Payload withdraw_event))] ++ repeat RunServer 3.

(** The delay ends; the data server finishes the start event (seven more
    actions), accepts the withdraw event and handles it (nine actions). *)
Definition after_the_delay : list move :=
  [Tick 5] ++ repeat RunServer 16.

(** The timer at work during the delay of a start event: a window with its
    deadline at 3 is open when the start event arrives at time 0. *)
Definition timer_during_delay : list move :=
  [Arrive (Post (Payload (start_event (PInt 60))))] ++ repeat RunServer 7
  ++ [Tick 3] ++ repeat RunTimer 8.

(** A window opened earlier, with its deadline at 3, right after start-up. *)
Definition early_window : world :=
  set_vsc_end_time (Some 3%float) (set_vsc_active true idle_world).


(** The string that [json.loads] makes of the escape [\ud800]: one lone
    surrogate, the bytes [ED A0 80]. *)
Definition lone_surrogate : string :=
  String (Ascii.ascii_of_nat 237)
    (String (Ascii.ascii_of_nat 160) (String (Ascii.ascii_of_nat 128) EmptyString)).

(** The pulse thread that the handler of a start event starts at time [t]. *)
Definition start_pulse (t : float) : thread_args :=
  ThreadArgs RELAY1_PIN "Relay 1" "VSC Start" t.

(** A start event with its duration in the nested [event.data] object. *)
Definition nested_start_event (duration : pyval) : pyval :=
  PDict (<["type" := PStr "vscDeployed"]>
         (<["event" := PDict (<["data" := PDict (<["duration" := duration]> ∅)]> ∅)]> ∅)).

(** The scenario of the specification run by the scheduler.  A start event
    with a duration of 60 s arrives at time 0 right after start-up (start
    delay 5 s, pulse duration 0.5 s); the data server accepts it and runs its
    handler up to the sleep, and to its end once the clock reads 5; the pulse
    thread that the handler started runs up to its sleep and, once the clock
    reads 5.5, to its end. *)
Definition timeline_start : list move :=
  [Arrive (Post (Payload (start_event (PInt 60))))] ++ repeat RunServer 7
  ++ [Tick 5] ++ repeat RunServer 8
  ++ repeat (RunPulse 0) 5 ++ [Tick 5.5] ++ repeat (RunPulse 0) 3.

(** No withdraw event arrives; at 65 the timer makes one turn, and the pulse
    thread that it starts runs likewise. *)
Definition timeline_end : list move :=
  [Tick 65] ++ repeat RunTimer 8
  ++ repeat (RunPulse 1) 5 ++ [Tick 65.5] ++ repeat (RunPulse 1) 3.

(** The exit status of a command line, when it ran at all. *)
Definition exit_status (h : wifi_host) (argv : list string) : option Z :=
  match subprocess_run h argv with
  | Ok c => Some (returncode c)
  | Raised _ => None
  end.

(** Everything that a successful [connect_to_wifi] runs, in order. *)
Definition connection_steps (ssid password : string) (use_dhcp : bool)
    (static_ip gateway dns : string) : list (list string) :=
  [con_delete ssid; con_add ssid; con_modify_psk ssid password]
  ++ (if use_dhcp then [] else [con_modify_ipv4 ssid static_ip gateway dns])
  ++ [con_up ssid].

(** What it takes for [connect_to_wifi] to report success: its first message
    is printed, no command raises, and [con add] and [con up] exit with 0. *)
Definition connects (h : wifi_host) (ssid password : string) (use_dhcp : bool)
    (static_ip gateway dns : string) : Prop :=
  has_surrogate ssid = false
  ∧ is_Some (exit_status h (con_delete ssid))
  ∧ exit_status h (con_add ssid) = Some 0
  ∧ is_Some (exit_status h (con_modify_psk ssid password))
  ∧ (use_dhcp = false → is_Some (exit_status h (con_modify_ipv4 ssid static_ip gateway dns)))
  ∧ exit_status h (con_up ssid) = Some 0.

(** A network manager that accepts every command, and one on which
    [con add] exits with 1; exceptions have no text and the page is the
    message. *)
Definition accepting_wifi : wifi_host :=
  WifiHost (λ _, Ok (Completed 0 "" "")) (λ _, "") (λ _ message, Ok message).

Definition add_refused : wifi_host :=
  WifiHost (λ argv, Ok (Completed (if bool_decide (argv !! 3%nat = Some "add") then 1 else 0)
                                  "" "no such device"))
           (λ _, "") (λ _ message, Ok message).

(** * The rest of the program *)

(** ** [setup_gpio] (lines 79-96)

    The calls that configure the library and the two pins ([setwarnings],
    [setmode], [setup]) either all return or one of them raises, which the
    caller says with [configure_raises]; the two [GPIO.output] calls are those
    of the driver of the shared state. *)

Definition set_GPIO_AVAILABLE (v : bool) (w : world) : world :=
  World v (relay1_state w) (relay2_state w) (vsc_active w) (vsc_end_time w)
    (last_smartrace_event w) (smartrace_events_log w) (pulse_duration w)
    (relay1_delay w) (clock w) (config_file w) (fs_writable w) (gpio_raises w)
    (gpio_calls w) (threads_started w) (responses w) (commands_run w).

Definition setup_gpio (configure_raises : bool) : prog bool :=
  available ← read GPIO_AVAILABLE;
  if available : bool then
    try_except
      (lift (if configure_raises then Raised RuntimeError else Ok tt);;
       GPIO_output RELAY1_PIN false;;
       GPIO_output RELAY2_PIN false;;
       Ret true)
      (λ _, write (set_GPIO_AVAILABLE false);; Ret false)
  else Ret false.

(** ** [WebHandler.do_GET] (lines 855-888)

    The two HTML pages are taken as given: functions of the state that
    return the page or raise.  The status line and the headers are written
    before the page is built, so a page that raises leaves a 200 without a
    body; the exception is printed. *)
Section Pages.

Variable web_page : world → result string.
Variable wifi_config_page : world → result string.



End Pages.

(** ** The rows of "Recent Events" in [web_page] (lines 801-806):
    [smartrace_events_log[-5:][::-1]]. *)
Definition recent_events (w : world) : list event :=
  rev (drop (length (smartrace_events_log w) - 5) (smartrace_events_log w)).

(** ** The handler of the data port in two parts

    Lines 313-345, what the handler does once the event is recorded, and
    lines 347-357, the answer that follows its outcome. *)
Definition dispatch (ftr : float → bool) (et data : pyval) : prog unit :=
  lift (print_fstring et);;
  if py_in et VSC_START_EVENTS then SmartRaceDataHandler.vsc_deployed ftr data
  else if py_in et VSC_END_EVENTS then SmartRaceDataHandler.vsc_withdrawn
  else Ret tt.

Definition answered (o : result unit * world) : world :=
  set_responses
    (responses o.2 ++ [match o.1 with Ok _ => response_200 | Raised _ => response_500 end])
    o.2.

(** ** [scan_wifi_networks] (lines 155-184)

    The scan cuts the output of [nmcli] at white space and looks for single
    characters in it: here a [str] is taken by its code points.  What
    [subprocess.run] answers to the command of line 158 is given: an
    exception (a timeout among others), or the exit status and the standard
    output. *)

Definition text : Type := list N.

(** The code points of an ASCII literal. *)
Definition text_of (s : string) : text :=
  map Ascii.N_of_ascii (String.list_ascii_of_string s).

(** [c.isspace()], the characters at which [split()] and [strip()] cut. *)
Definition isspace (c : N) : bool :=
  ((9 <=? c) && (c <=? 13) || (28 <=? c) && (c <=? 32) || (c =? 133) || (c =? 160)
   || (c =? 5760) || (8192 <=? c) && (c <=? 8202) || (c =? 8232) || (c =? 8233)
   || (c =? 8239) || (c =? 8287) || (c =? 12288))%N.

Fixpoint str_lstrip (s : text) : text :=
  match s with
  | c :: rest => if isspace c then str_lstrip rest else s
  | [] => []
  end.

(** [s.strip()]. *)
Definition str_strip (s : text) : text := rev (str_lstrip (rev (str_lstrip s))).

(** [s.split()]: the maximal runs of characters that are not white space;
    [field] holds the run being read, last character first. *)
Fixpoint str_split_from (field : text) (s : text) : list text :=
  match s with
  | [] => match field with [] => [] | _ => [rev field] end
  | c :: rest =>
      if isspace c then
        match field with
        | [] => str_split_from [] rest
        | _ => rev field :: str_split_from [] rest
        end
      else str_split_from (c :: field) rest
  end.

Definition str_split (s : text) : list text := str_split_from [] s.

(** [s.split(sep)] for a separator of one character. *)
Fixpoint str_split_at (sep : N) (s : text) : list text :=
  match s with
  | [] => [[]]
  | c :: rest =>
      if (c =? sep)%N then [] :: str_split_at sep rest
      else match str_split_at sep rest with
           | field :: fields => (c :: field) :: fields
           | [] => [[c]]
           end
  end.

(** [parts[i]]. *)
Definition item {A : Type} (parts : list A) (i : nat) : result A :=
  match parts !! i with
  | Some x => Ok x
  | None => Raised IndexError
  end.

Definition newline : N := 10.
Definition star : N := 42.
Definition percent : N := 37.

(** An entry of the list that the scan returns. *)
Record network : Type := Network { ssid : text; signal : text; in_use : bool }.

(** Lines 169-173: the first field with a percent sign, without its percent
    signs. *)
Definition signal_of (parts : list text) : text :=
  match list_find (λ part : text, percent ∈ part) parts with
  | Some (_, part) => filter (λ c, c ≠ percent) part
  | None => text_of "0"
  end.

(** Lines 164-179, the body of the loop: the entry that a line adds, if
    any. *)
Definition scan_line (line : text) : result (option network) :=
  match str_strip line with
  | [] => Ok None
  | _ =>
      let parts := str_split line in
      if (2 <=? length parts)%nat then
        let in_use := bool_decide (star ∈ line) in
        ssid ← (if in_use then item parts 2 else item parts 1);
        Ok (Some (Network ssid (signal_of parts) in_use))
      else Ok None
  end.

Fixpoint scan_lines (networks : list network) (lines : list text)
    : result (list network) :=
  match lines with
  | [] => Ok networks
  | line :: rest =>
      entry ← scan_line line;
      scan_lines (networks ++ option_list entry) rest
  end.

Definition scan_wifi_networks (nmcli_wifi_list : result (Z * text)) : list network :=
  match (result ← nmcli_wifi_list;
         if result.1 =? 0
         then scan_lines [] (drop 1 (str_split_at newline result.2))
         else Ok [])
  with
  | Ok networks => networks
  | Raised _ => []
  end.

(** A field of a scanned line: not empty, no white space in it. *)
Definition is_field (f : text) : Prop := f ≠ [] ∧ Forall (λ c, isspace c = false) f.

(** A sample scan: the header, a line of the network in use cut short, and
    a complete line. *)
Definition short_scan : text :=
  text_of "IN-USE SSID" ++ [newline] ++ text_of "* Home" ++ [newline]
  ++ text_of "Shop 40%".

(** ** Programs that cannot end in an exception

    [never_raises p]: whatever state each action of [p] finds, that is,
    whatever the other threads do between two of its actions, [p] does not
    end with an exception that nobody has caught. *)
Fixpoint never_raises {A : Type} (p : prog A) : Prop :=
  match p with
  | Ret _ => True
  | Raise _ => False
  | Act _ k => ∀ w, never_raises (k w)
  | Sleep _ k => never_raises k
  end.

(** Every thread of the running program is in such a state. *)
Definition healthy (s : system) : Prop :=
  never_raises (code (timer_thread s))
  ∧ never_raises (code (smartrace_thread s))
  ∧ Forall (λ th, never_raises (code th)) (pulse_threads s).

(** * Properties *)

(** ** Running programs *)

Lemma exec_bind {A B : Type} (p : prog A) (g : A → prog B) (w : world) :
  exec (p ≫= g) w =
  match exec p w with
  | (Ok a, w') => exec (g a) w'
  | (Raised e, w') => (Raised e, w')
  end.
Proof.
  unfold mbind, prog_bind.
  revert w. induction p as [a|e|u k IH|d k IH]; intros w; cbn; auto.
Qed.

Lemma exec_try_except {A : Type} (p : prog A) (h : exn → prog A) (w : world) :
  exec (try_except p h) w =
  match exec p w with
  | (Ok a, w') => (Ok a, w')
  | (Raised e, w') => exec (h e) w'
  end.
Proof.
  revert w. induction p as [a|e|u k IH|d k IH]; intros w; cbn; auto.
Qed.

(** Symbolic execution: unfold the straight-line definitions and let [exec]
    consume the actions it can see. *)
Ltac prog_unfold :=
  cbv [mbind prog_bind mret prog_ret result_bind result_ret
       log_event send pulse_relay_threaded time_time
       read write time_sleep sleep_arg float_add set_relay_state GPIO_output
       save_config load_config
       SmartRaceDataHandler.vsc_withdrawn SmartRaceDataHandler.vsc_deployed
       SmartRaceDataHandler.fromtimestamp].
Ltac world_simpl :=
  cbn [GPIO_AVAILABLE relay1_state relay2_state vsc_active vsc_end_time
       last_smartrace_event smartrace_events_log pulse_duration relay1_delay clock
       config_file fs_writable gpio_raises gpio_calls threads_started responses
       commands_run set_commands_run set_relay1_state set_relay2_state set_vsc_active set_vsc_end_time
       set_last_smartrace_event set_smartrace_events_log set_pulse_duration
       set_relay1_delay set_clock set_config_file set_gpio_calls
       set_threads_started set_responses id fst snd].
Ltac prog_simpl :=
  repeat (progress (prog_unfold;
                    cbn [bind try_except exec lift fst snd json_loads id from_option as_float];
                    world_simpl)).

(** ** Classification of events *)

Lemma event_type_of_dict (d : gmap string pyval) :
  ∃ et, event_type_of (PDict d) = Ok et.
Proof.
  unfold event_type_of. cbn.
  destruct (truthy _); eauto.
Qed.

Lemma end_not_start (v : pyval) :
  py_in v VSC_END_EVENTS = true → py_in v VSC_START_EVENTS = false.
Proof.
  destruct v as [| | | |s| |]; cbn; try discriminate.
  rewrite !orb_false_r, !orb_true_iff, !String.eqb_eq.
  intros H. repeat destruct H as [H|H]; subst s; reflexivity.
Qed.

(** The event names of both lists are ASCII, and a number is printed with
    digits: neither makes [print] raise. *)
Lemma listed_prints (v : pyval) (l : list string) :
  forallb (λ s, negb (has_surrogate s)) l = true →
  py_in v l = true → print_fstring v = Ok tt.
Proof.
  intros Hl. destruct v as [| | | |s| |]; cbn; try discriminate. intros Hin.
  apply existsb_exists in Hin. destruct Hin as (x & Hx & Heq).
  apply String.eqb_eq in Heq. subst x.
  rewrite forallb_forall in Hl. specialize (Hl s Hx).
  destruct (has_surrogate s); [discriminate|reflexivity].
Qed.

Lemma start_prints (v : pyval) :
  py_in v VSC_START_EVENTS = true → print_fstring v = Ok tt.
Proof. apply listed_prints. reflexivity. Qed.

Lemma end_prints (v : pyval) :
  py_in v VSC_END_EVENTS = true → print_fstring v = Ok tt.
Proof. apply listed_prints. reflexivity. Qed.

Lemma number_prints (v : pyval) (f : float) :
  as_float v = Ok f → print_fstring v = Ok tt.
Proof. destruct v; cbn; try discriminate; reflexivity. Qed.

(** ** The handler of the data port, case by case *)

Lemma exec_lift {A : Type} (r : result A) (w : world) : exec (lift r) w = (r, w).
Proof. destruct r; reflexivity. Qed.

Lemma exec_time_sleep (v : pyval) (w : world) :
  exec (time_sleep v) w
  = match sleep_arg v with
    | Ok d => (Ok tt, set_clock (clock w + d)%float w)
    | Raised e => (Raised e, w)
    end.
Proof. unfold time_sleep. rewrite exec_bind. destruct (sleep_arg v); reflexivity. Qed.

Lemma exec_log_event (ev : event) (w : world) :
  exec (log_event ev) (set_last_smartrace_event (Some ev) w) = (Ok tt, logged ev w).
Proof.
  unfold logged, run, log_event. prog_simpl.
  destruct (_ <? _)%nat; reflexivity.
Qed.

(** Lines 303-311 leave everything but the event log as it was. *)
Lemma logged_frame (ev : event) (w : world) :
  let w' := logged ev w in
  clock w' = clock w ∧ relay1_delay w' = relay1_delay w
  ∧ pulse_duration w' = pulse_duration w
  ∧ threads_started w' = threads_started w ∧ responses w' = responses w
  ∧ vsc_active w' = vsc_active w ∧ vsc_end_time w' = vsc_end_time w
  ∧ GPIO_AVAILABLE w' = GPIO_AVAILABLE w ∧ gpio_raises w' = gpio_raises w
  ∧ gpio_calls w' = gpio_calls w
  ∧ relay1_state w' = relay1_state w ∧ relay2_state w' = relay2_state w.
Proof.
  unfold logged, run. prog_simpl.
  destruct (_ <? _)%nat; prog_simpl; repeat split; reflexivity.
Qed.

(** The state that lines 303-311 leave is the one given but for the two
    records of the event. *)
Lemma logged_eq (ev : event) (w : world) :
  logged ev w
  = set_smartrace_events_log
      (let l := smartrace_events_log w ++ [ev] in
       if (100 <? length l)%nat then tail l else l)
      (set_last_smartrace_event (Some ev) w).
Proof.
  unfold logged, run. prog_simpl.
  destruct (_ <? _)%nat; reflexivity.
Qed.

(** The handler on a JSON object: the event is recorded, its type is
    printed, the branch of its classification is run, and the answer follows
    the outcome. *)
Lemma do_POST_object_exec (ftr : float → bool) (d : gmap string pyval) (et : pyval)
    (w : world) :
  event_type_of (PDict d) = Ok et →
  run (SmartRaceDataHandler.do_POST ftr (Payload (PDict d))) w
  = answered (exec (dispatch ftr et (PDict d)) (logged (Event (clock w) et (PDict d)) w)).
Proof.
  intros Het. unfold run, SmartRaceDataHandler.do_POST.
  rewrite exec_try_except, exec_bind. cbn [json_loads lift exec].
  rewrite exec_bind, Het. cbn [lift exec].
  rewrite exec_bind. unfold time_time at 1, read at 1. cbn [exec id]. cbv zeta.
  rewrite exec_bind. unfold write at 1. cbn [exec].
  rewrite exec_bind, exec_log_event.
  unfold dispatch. rewrite !(exec_bind (lift (print_fstring et))), !exec_lift.
  destruct (print_fstring et) as [[]|e]; [|reflexivity].
  rewrite exec_bind.
  destruct (exec _ _) as [[[]|e] w1]; reflexivity.
Qed.

(** The branch of a start event, step by step: the duration is looked up
    and printed, the handler sleeps, starts the pulse, sets [vsc_active], adds
    the duration to the clock, stores the deadline and formats it. *)
Lemma exec_vsc_deployed (ftr : float → bool) (data : pyval) (w : world) :
  exec (SmartRaceDataHandler.vsc_deployed ftr data) w
  = match vsc_duration data with
    | Raised e => (Raised e, w)
    | Ok duration =>
        match print_fstring duration with
        | Raised e => (Raised e, w)
        | Ok _ =>
            match sleep_arg (PFloat (relay1_delay w)) with
            | Raised e => (Raised e, w)
            | Ok delay =>
                let t := (clock w + delay)%float in
                let w1 := set_vsc_active true
                            (set_threads_started
                               (threads_started w
                                  ++ [ThreadArgs RELAY1_PIN "Relay 1" "VSC Start" t])
                               (set_clock t w)) in
                match float_add t duration with
                | Raised e => (Raised e, w1)
                | Ok end_time =>
                    (SmartRaceDataHandler.fromtimestamp ftr end_time,
                     set_vsc_end_time (Some end_time) w1)
                end
            end
        end
    end.
Proof.
  unfold SmartRaceDataHandler.vsc_deployed.
  rewrite exec_bind, exec_lift. destruct (vsc_duration data) as [duration|e]; [|reflexivity].
  rewrite exec_bind, exec_lift. destruct (print_fstring duration) as [[]|e]; [|reflexivity].
  rewrite exec_bind. unfold read at 1. cbn [exec id].
  rewrite exec_bind, exec_time_sleep.
  destruct (sleep_arg (PFloat (relay1_delay w))) as [delay|e]; [|reflexivity].
  rewrite exec_bind. unfold pulse_relay_threaded at 1, write at 1. cbn [exec].
  rewrite exec_bind. unfold write at 1. cbn [exec].
  rewrite exec_bind. unfold time_time at 1, read at 1. cbn [exec id].
  rewrite exec_bind, exec_lift.
  cbn [clock set_vsc_active set_threads_started set_clock].
  destruct (float_add _ duration) as [end_time|e]; [|reflexivity].
  rewrite exec_bind. unfold write at 1. cbn [exec].
  rewrite exec_bind. unfold read at 1. cbn [exec id].
  cbn [vsc_end_time set_vsc_end_time from_option]. rewrite exec_lift. reflexivity.
Qed.

Lemma exec_vsc_withdrawn (w : world) :
  exec SmartRaceDataHandler.vsc_withdrawn w
  = (Ok tt,
     set_vsc_end_time None
       (set_vsc_active false
          (set_threads_started
             (threads_started w
                ++ [ThreadArgs RELAY2_PIN "Relay 2" "VSC Manual Retract" (clock w)]) w))).
Proof. reflexivity. Qed.

(** A start event whose duration is a number: the handler sleeps
    [relay1_delay], starts the Relay 1 pulse, sets [vsc_active], stores the
    deadline and answers. *)
Lemma start_event_run (ftr : float → bool) (w : world) (d : gmap string pyval)
    (et v : pyval) (f : float) :
  event_type_of (PDict d) = Ok et → py_in et VSC_START_EVENTS = true →
  vsc_duration (PDict d) = Ok v → as_float v = Ok f →
  (0 <=? relay1_delay w)%float = true →
  run (SmartRaceDataHandler.do_POST ftr (Payload (PDict d))) w =
  let t := (clock w + relay1_delay w)%float in
  set_responses
    (responses w ++ [if ftr (t + f)%float then response_500 else response_200])
    (set_vsc_end_time (Some (t + f)%float)
       (set_vsc_active true
          (set_threads_started
             (threads_started w ++ [ThreadArgs RELAY1_PIN "Relay 1" "VSC Start" t])
             (set_clock t (logged (Event (clock w) et (PDict d)) w))))).
Proof.
  intros Het Hs Hv Hf Hdelay. rewrite (do_POST_object_exec ftr d et w Het).
  unfold dispatch. rewrite exec_bind, exec_lift, (start_prints _ Hs), Hs.
  rewrite exec_vsc_deployed, Hv, (number_prints _ _ Hf).
  rewrite logged_eq. world_simpl. unfold sleep_arg. cbn [as_float mbind result_bind].
  rewrite Hdelay. cbv zeta. unfold float_add. rewrite Hf. cbn [mbind result_bind].
  unfold SmartRaceDataHandler.fromtimestamp, answered.
  destruct (ftr _); reflexivity.
Qed.

(** A withdraw event. *)
Lemma withdraw_event_run (ftr : float → bool) (w : world) (d : gmap string pyval)
    (et : pyval) :
  event_type_of (PDict d) = Ok et → py_in et VSC_END_EVENTS = true →
  run (SmartRaceDataHandler.do_POST ftr (Payload (PDict d))) w =
  set_responses (responses w ++ [response_200])
    (set_vsc_end_time None
       (set_vsc_active false
          (set_threads_started
             (threads_started w
                ++ [ThreadArgs RELAY2_PIN "Relay 2" "VSC Manual Retract" (clock w)])
             (logged (Event (clock w) et (PDict d)) w)))).
Proof.
  intros Het Hend. pose proof (end_not_start _ Hend) as Hns.
  rewrite (do_POST_object_exec ftr d et w Het).
  unfold dispatch. rewrite exec_bind, exec_lift, (end_prints _ Hend), Hns, Hend.
  rewrite exec_vsc_withdrawn, logged_eq. reflexivity.
Qed.

(** An event whose type is in neither list: it is recorded, its type is
    printed, and the answer is 200 unless the print raised. *)
Lemma unknown_event_run (ftr : float → bool) (w : world) (d : gmap string pyval)
    (et : pyval) :
  event_type_of (PDict d) = Ok et →
  py_in et VSC_START_EVENTS = false → py_in et VSC_END_EVENTS = false →
  run (SmartRaceDataHandler.do_POST ftr (Payload (PDict d))) w =
  set_responses
    (responses w ++ [match print_fstring et with
                     | Ok _ => response_200
                     | Raised _ => response_500
                     end])
    (logged (Event (clock w) et (PDict d)) w).
Proof.
  intros Het Hns Hne. rewrite (do_POST_object_exec ftr d et w Het).
  unfold dispatch. rewrite exec_bind, exec_lift, Hns, Hne, logged_eq.
  destruct (print_fstring et) as [[]|e]; reflexivity.
Qed.

(** What makes [print] raise. *)
Lemma prints_iff (v : pyval) :
  print_fstring v = Ok tt ↔ ∀ s, v = PStr s → has_surrogate s = false.
Proof.
  destruct v as [| | | |s0| |]; cbn; try (split; [intros _ s H; discriminate H|reflexivity]).
  destruct (has_surrogate s0) eqn:E; split.
  - discriminate.
  - intros H. specialize (H s0 eq_refl). congruence.
  - intros _ s H. injection H as <-. exact E.
  - reflexivity.
Qed.

Lemma surrogate_raises (s : string) :
  has_surrogate s = true → print_fstring (PStr s) = Raised UnicodeEncodeError.
Proof. cbn. intros ->. reflexivity. Qed.

(** A start event: the branch of lines 317-336 is run from the state in
    which the event is recorded. *)
Lemma start_event_exec (ftr : float → bool) (w : world) (d : gmap string pyval)
    (et : pyval) :
  event_type_of (PDict d) = Ok et → py_in et VSC_START_EVENTS = true →
  run (SmartRaceDataHandler.do_POST ftr (Payload (PDict d))) w
  = answered (exec (SmartRaceDataHandler.vsc_deployed ftr (PDict d))
                   (logged (Event (clock w) et (PDict d)) w)).
Proof.
  intros Het Hs. rewrite (do_POST_object_exec ftr d et w Het).
  unfold dispatch. rewrite exec_bind, exec_lift, (start_prints _ Hs), Hs. reflexivity.
Qed.



(** The handler always returns normally. *)
Lemma do_POST_returns (ftr : float → bool) (r : request) (w : world) :
  (exec (SmartRaceDataHandler.do_POST ftr r) w).1 = Ok tt.
Proof.
  unfold SmartRaceDataHandler.do_POST. rewrite exec_try_except.
  destruct (exec _ w) as [[[]|e] w1]; reflexivity.
Qed.

(** ** C2: a withdraw event and the end pulse *)




(** ** C9: the duration of a start event *)




(** ** C8: the answers of the ingestion endpoint *)




(** ** C3: what a pulse leaves behind *)

(** The bounds of [pulse_duration] make it a valid argument of
    [time.sleep]. *)
Lemma leb_tenth_nonneg (d : float) :
  (0.1 <=? d)%float = true → (0 <=? d)%float = true.
Proof.
  rewrite !leb_spec.
  change (Prim2SF 0.1) with (S754_finite false 7205759403792794 (-56)).
  change (Prim2SF 0) with (S754_zero false).
  destruct (Prim2SF d) as [s|s| |s m e]; try destruct s; cbn; congruence.
Qed.

(** C3, counterexample.  With a pulse duration of 0.5 s and a driver that
    raises on the "on" call, the pulse returns [False] after that single
    call: no "off" call is issued. *)
Lemma failed_on_skips_off :
  let w := initial_world true on_fails NoFile true 0%float in
  pulse_duration w = PFloat 0.5
  ∧ exec (pulse_relay RELAY1_PIN "Relay 1" "Manual Test") w
    = (Ok false, set_gpio_calls [GpioCall 0 RELAY1_PIN true true] w).
Proof. vm_compute. split; reflexivity. Qed.

(** C3, as amended.  For every pulse duration [d] in [0.1, 5.0]: with the
    GPIO library present and a driver that does not raise, the pulse issues
    "on", sleeps [d], issues "off", leaves the energized flag false and
    returns [True]; when the driver raises on "on", the pulse returns [False]
    at once, with no "off" call and the flags untouched; when it raises on
    "off", the flag stays true; without the GPIO library nothing is issued
    and nothing changes. *)
Theorem pulse_outcome (w : world) (relay_pin : Z) (relay_name source : string)
    (d : float) :
  pulse_duration w = PFloat d →
  (0.1 <=? d)%float = true → (d <=? 5)%float = true →
  let r := (exec (pulse_relay relay_pin relay_name source) w).1 in
  let w' := (exec (pulse_relay relay_pin relay_name source) w).2 in
  let on := GpioCall (clock w) relay_pin true in
  let off := GpioCall (clock w + d)%float relay_pin false in
  if GPIO_AVAILABLE w then
    if gpio_raises w relay_pin true then
      r = Ok false ∧ gpio_calls w' = gpio_calls w ++ [on true]
      ∧ relay1_state w' = relay1_state w ∧ relay2_state w' = relay2_state w
      ∧ clock w' = clock w
    else if gpio_raises w relay_pin false then
      r = Ok false ∧ gpio_calls w' = gpio_calls w ++ [on false; off true]
      ∧ relay_state relay_pin w' = true
    else
      r = Ok true ∧ gpio_calls w' = gpio_calls w ++ [on false; off false]
      ∧ relay_state relay_pin w' = false ∧ clock w' = (clock w + d)%float
  else r = Ok true ∧ w' = w.
Proof.
  intros Hd Hlo Hhi. pose proof (leb_tenth_nonneg d Hlo) as H0.
  cbv zeta. unfold pulse_relay, relay_state. prog_simpl.
  destruct (GPIO_AVAILABLE w); [|split; reflexivity].
  prog_simpl. destruct (gpio_raises w relay_pin true) eqn:Hon; prog_simpl.
  { repeat split; reflexivity. }
  destruct (relay_pin =? RELAY1_PIN) eqn:Hpin; prog_simpl;
    rewrite Hd; prog_simpl; rewrite H0; prog_simpl;
    destruct (gpio_raises w relay_pin false) eqn:Hoff; prog_simpl;
    rewrite <- ?app_assoc; repeat split; reflexivity.
Qed.

Lemma pulse_outcome_witness :
  let w := set_clock 5 idle_world in
  let w' := run (pulse_relay RELAY1_PIN "Relay 1" "VSC Start") w in
  gpio_calls w' = [GpioCall 5 RELAY1_PIN true false; GpioCall 5.5 RELAY1_PIN false false]
  ∧ relay1_state w' = false.
Proof.
  intros w w'.
  pose proof (pulse_outcome w RELAY1_PIN "Relay 1" "VSC Start" 0.5%float
                eq_refl eq_refl eq_refl) as H.
  cbv zeta in H. change (GPIO_AVAILABLE w) with true in H.
  change (gpio_raises w RELAY1_PIN true) with false in H.
  change (gpio_raises w RELAY1_PIN false) with false in H. cbv iota in H.
  destruct H as (_ & Hcalls & Hflag & _). split; [exact Hcalls | exact Hflag].
Defined.

(** ** The network manager *)

Lemma exec_subprocess (h : wifi_host) (argv : list string) (w : world) :
  exec (subprocess h argv) w
  = (subprocess_run h argv, set_commands_run (commands_run w ++ [argv]) w).
Proof. unfold subprocess. cbn [exec]. apply exec_lift. Qed.

(** [time.sleep(2)]. *)
Lemma sleep_two : sleep_arg (PInt 2) = Ok 2%float.
Proof. vm_compute. reflexivity. Qed.

(** One command of [connect_to_wifi] run: the case of its outcome. *)
Ltac run_command h argv c e :=
  rewrite ?exec_bind, exec_subprocess;
  destruct (subprocess_run h argv) as [c|e] eqn:?.

(** What [connect_to_wifi] does, whatever the network manager answers: it
    returns a pair, having run a prefix of the commands of a connection, all
    of them when it reports success, and slept 2 s in that case only. *)
Lemma connect_to_wifi_exec (h : wifi_host) (ssid password : string) (use_dhcp : bool)
    (static_ip gateway dns : string) (w : world) :
  ∃ (b : bool) (message : string) (cmds : list (list string)),
    exec (connect_to_wifi h ssid password use_dhcp static_ip gateway dns) w
    = (Ok (b, message),
       set_commands_run (commands_run w ++ cmds)
         (if b then set_clock (clock w + 2)%float w else w))
    ∧ cmds `prefix_of` connection_steps ssid password use_dhcp static_ip gateway dns
    ∧ (b = true ↔ connects h ssid password use_dhcp static_ip gateway dns)
    ∧ (b = true → cmds = connection_steps ssid password use_dhcp static_ip gateway dns
                  ∧ message = "Connected successfully to " +:+ ssid)
    ∧ (con_modify_psk ssid password ∈ cmds → exit_status h (con_add ssid) = Some 0).
Proof.
  unfold connect_to_wifi, connects, connection_steps, exit_status.
  rewrite exec_try_except, exec_bind, exec_lift. cbn [print_fstring].
  destruct (has_surrogate ssid) eqn:Hsur.
  { cbn [exec]. exists false, ("Connection error: " +:+ str_of_exn h UnicodeEncodeError), [].
    rewrite app_nil_r. split; [destruct w; reflexivity|]. split; [apply prefix_nil|].
    split; [split; [discriminate|intros (H & _); discriminate H]|].
    split; [discriminate|]. intros H. inversion H. }
  run_command h (con_delete ssid) c1 e1.
  2:{ cbn [exec]. eexists false, _, [_]. split; [reflexivity|].
      split; [eexists; reflexivity|].
      split; [split; [discriminate|intros (_ & H & _); destruct H as [? H]; discriminate H]|].
      split; [discriminate|].
      intros H. apply list_elem_of_singleton in H. discriminate H. }
  run_command h (con_add ssid) c2 e2.
  2:{ cbn [exec]. eexists false, _, [_; _]. split.
      { cbn [set_commands_run commands_run]. rewrite <- app_assoc. reflexivity. }
      split; [eexists; reflexivity|].
      split; [split; [discriminate|intros (_ & _ & H & _); discriminate H]|].
      split; [discriminate|].
      intros H. repeat (apply elem_of_cons in H; destruct H as [H|H]; [discriminate H|]).
      inversion H. }
  destruct (returncode c2 =? 0) eqn:Hadd; cbn [negb].
  2:{ cbn [exec]. eexists false, _, [_; _]. split.
      { cbn [set_commands_run commands_run]. rewrite <- app_assoc. reflexivity. }
      split; [eexists; reflexivity|].
      apply Z.eqb_neq in Hadd.
      split; [split; [discriminate|intros (_ & _ & H & _); congruence]|].
      split; [discriminate|].
      intros H. repeat (apply elem_of_cons in H; destruct H as [H|H]; [discriminate H|]).
      inversion H. }
  apply Z.eqb_eq in Hadd.
  run_command h (con_modify_psk ssid password) c3 e3.
  2:{ cbn [exec]. eexists false, _, [_; _; _]. split.
      { cbn [set_commands_run commands_run]. rewrite <- !app_assoc. reflexivity. }
      split; [eexists; reflexivity|].
      split; [split; [discriminate
                     |intros (_ & _ & _ & H & _); destruct H as [? H]; discriminate H]|].
      split; [discriminate|]. intros _. congruence. }
  destruct use_dhcp; cbn [negb].
  - rewrite exec_bind. cbn [exec].
    run_command h (con_up ssid) c5 e5.
    2:{ cbn [exec]. eexists false, _, [_; _; _; _]. split.
        { cbn [set_commands_run commands_run]. rewrite <- !app_assoc. reflexivity. }
        split; [eexists; reflexivity|].
        split; [split; [discriminate|intros (_ & _ & _ & _ & _ & H); discriminate H]|].
        split; [discriminate|]. intros _. congruence. }
    destruct (returncode c5 =? 0) eqn:Hup.
    + apply Z.eqb_eq in Hup.
      rewrite exec_bind, exec_time_sleep, sleep_two. cbn [exec].
      eexists true, _, [_; _; _; _]. split.
      { cbn [set_commands_run commands_run set_clock clock]. rewrite <- !app_assoc.
        reflexivity. }
      split; [eexists; reflexivity|].
      split; [split; [intros _|reflexivity]|].
      { repeat split; eauto; try congruence. }
      split; [intros _; split; reflexivity|]. intros _. congruence.
    + apply Z.eqb_neq in Hup. cbn [exec]. eexists false, _, [_; _; _; _]. split.
      { cbn [set_commands_run commands_run]. rewrite <- !app_assoc. reflexivity. }
      split; [eexists; reflexivity|].
      split; [split; [discriminate|intros (_ & _ & _ & _ & _ & H); congruence]|].
      split; [discriminate|]. intros _. congruence.
  - rewrite exec_bind, exec_bind.
    run_command h (con_modify_ipv4 ssid static_ip gateway dns) c4 e4.
    2:{ cbn [exec]. eexists false, _, [_; _; _; _]. split.
        { cbn [set_commands_run commands_run]. rewrite <- !app_assoc. reflexivity. }
        split; [eexists; reflexivity|].
        split; [split; [discriminate
                       |intros (_ & _ & _ & _ & H & _); destruct (H eq_refl) as [? H'];
                        discriminate H']|].
        split; [discriminate|]. intros _. congruence. }
    cbn [exec].
    run_command h (con_up ssid) c5 e5.
    2:{ cbn [exec]. eexists false, _, [_; _; _; _; _]. split.
        { cbn [set_commands_run commands_run]. rewrite <- !app_assoc. reflexivity. }
        split; [eexists; reflexivity|].
        split; [split; [discriminate|intros (_ & _ & _ & _ & _ & H); discriminate H]|].
        split; [discriminate|]. intros _. congruence. }
    destruct (returncode c5 =? 0) eqn:Hup.
    + apply Z.eqb_eq in Hup.
      rewrite exec_bind, exec_time_sleep, sleep_two. cbn [exec].
      eexists true, _, [_; _; _; _; _]. split.
      { cbn [set_commands_run commands_run set_clock clock]. rewrite <- !app_assoc.
        reflexivity. }
      split; [eexists; reflexivity|].
      split; [split; [intros _|reflexivity]|].
      { repeat split; eauto; try congruence. }
      split; [intros _; split; reflexivity|]. intros _. congruence.
    + apply Z.eqb_neq in Hup. cbn [exec]. eexists false, _, [_; _; _; _; _]. split.
      { cbn [set_commands_run commands_run]. rewrite <- !app_assoc. reflexivity. }
      split; [eexists; reflexivity|].
      split; [split; [discriminate|intros (_ & _ & _ & _ & _ & H); congruence]|].
      split; [discriminate|]. intros _. congruence.
Qed.

(** The branch of [/wifi/connect]: at most one answer, the commands run and
    the two seconds slept on success; nothing else changes. *)
Lemma wifi_connect_run (fos : string → result float) (host : wifi_host) (f : form)
    (w : world) :
  ∃ (b : bool) (cmds : list (list string)) (answers : list response),
    run (WebHandler.do_POST fos host "/wifi/connect" f) w
    = set_responses (responses w ++ answers)
        (set_commands_run (commands_run w ++ cmds)
           (if b then set_clock (clock w + 2)%float w else w))
    ∧ Forall (λ a, status a = 200) answers
    ∧ (length answers ≤ 1)%nat.
Proof.
  assert (Hnone : ∃ (b : bool) (cmds : list (list string)) (answers : list response),
             w = set_responses (responses w ++ answers)
                   (set_commands_run (commands_run w ++ cmds)
                      (if b then set_clock (clock w + 2)%float w else w))
             ∧ Forall (λ a, status a = 200) answers ∧ (length answers ≤ 1)%nat).
  { exists false, [], []. rewrite !app_nil_r. split; [destruct w; reflexivity|].
    split; [constructor|cbn; lia]. }
  unfold run, WebHandler.do_POST. cbn [String.eqb Ascii.eqb Bool.eqb].
  rewrite exec_try_except, exec_bind, exec_lift.
  destruct f as [e|params]; cbn [parse_qs]; [exact Hnone|].
  unfold WebHandler.wifi_connect.
  repeat (rewrite exec_bind, exec_lift;
          match goal with
          | |- context [WebHandler.first_field ?ps ?k ?dflt] =>
              destruct (WebHandler.first_field ps k dflt) as [?|?]; [|exact Hnone]
          end).
  rewrite exec_bind.
  match goal with
  | |- context [exec (connect_to_wifi ?h ?a ?b ?c ?d ?e ?g) w] =>
      destruct (connect_to_wifi_exec h a b c d e g w) as (ok & msg & cmds & Hexec & _)
  end.
  rewrite Hexec. cbn [fst snd].
  destruct (connection_page host ok msg) as [html|e]; cbn [exec bind mbind prog_bind send write];
    eexists ok, cmds, [_]; (split; [destruct ok; reflexivity|]);
    (split; [repeat constructor|cbn; lia]).
Qed.

(** ** C6, C7, C10: the configuration *)

(** What [/set-pulse] does once both fields have been converted: each field
    is applied when it passes its own test, the record is saved when the
    file can be written, and the client is redirected. *)
Lemma set_pulse_run (fos : string → result float) (host : wifi_host)
    (params : gmap string (list string)) (w : world) (x y : float) :
  WebHandler.first_param params "pulse_duration" [PFloat 0.5] ≫= WebHandler.py_float fos = Ok x →
  WebHandler.first_param params "relay1_delay" [PFloat 5.0] ≫= WebHandler.py_float fos = Ok y →
  run (WebHandler.do_POST fos host "/set-pulse" (Form params)) w =
  let w1 := if (0.1 <=? x)%float && (x <=? 5)%float
            then set_pulse_duration (PFloat x) w else w in
  let w2 := if (0 <=? y)%float && (y <=? 30)%float then set_relay1_delay y w1 else w1 in
  let w3 := if fs_writable w
            then set_config_file
                   (Content (config_record (pulse_duration w2) (relay1_delay w2))) w2
            else w2 in
  set_responses (responses w ++ [response_302]) w3.
Proof.
  intros Hx Hy. unfold run, WebHandler.do_POST, WebHandler.set_pulse.
  cbn [String.eqb Ascii.eqb Bool.eqb parse_qs].
  prog_simpl. cbv [mbind result_bind] in Hx, Hy. rewrite Hx. prog_simpl.
  rewrite Hy. prog_simpl.
  destruct ((0.1 <=? x)%float && (x <=? 5)%float);
    destruct ((0 <=? y)%float && (y <=? 30)%float); prog_simpl;
    destruct (fs_writable w); prog_simpl; reflexivity.
Qed.

(** A field that [float] refuses makes the handler give up before anything
    is assigned. *)
Lemma set_pulse_unparsed (fos : string → result float) (host : wifi_host)
    (params : gmap string (list string)) (w : world) :
  (∃ e, WebHandler.first_param params "pulse_duration" [PFloat 0.5]
        ≫= WebHandler.py_float fos = Raised e)
  ∨ (∃ e, WebHandler.first_param params "relay1_delay" [PFloat 5.0]
          ≫= WebHandler.py_float fos = Raised e) →
  run (WebHandler.do_POST fos host "/set-pulse" (Form params)) w = w.
Proof.
  unfold run, WebHandler.do_POST, WebHandler.set_pulse.
  cbn [String.eqb Ascii.eqb Bool.eqb parse_qs]. prog_simpl.
  cbv [mbind result_bind].
  intros [[e He]|[e He]].
  - rewrite He. reflexivity.
  - destruct (match WebHandler.first_param params "pulse_duration" [PFloat 0.5] with
              | Ok a => WebHandler.py_float fos a | Raised e0 => Raised e0 end);
      [|reflexivity].
    prog_simpl. rewrite He. reflexivity.
Qed.

(** What [load_config] does: only [pulse_duration] is assigned. *)
Lemma load_config_run (w : world) :
  run load_config w =
  match config_file w with
  | NoFile => w
  | Content (PDict c) =>
      set_pulse_duration (from_option id (PFloat 0.5) (c !! "pulse_duration")) w
  | _ => set_pulse_duration (PFloat 0.5) w
  end.
Proof.
  unfold run. prog_simpl.
  destruct (config_file w) as [| |v]; try reflexivity.
  destruct v; reflexivity.
Qed.

Lemma save_config_run (w : world) :
  run save_config w =
  if fs_writable w
  then set_config_file (Content (config_record (pulse_duration w) (relay1_delay w))) w
  else w.
Proof. unfold run. prog_simpl. destruct (fs_writable w); reflexivity. Qed.

(** C6, the code at the failing input.  A configuration file holding
    [pulse_duration = 10] is loaded as it is at start-up: the globals, within
    their bounds before [load_config], are outside them after it.  The
    bounds that [/set-pulse] tests before it assigns are not tested here. *)
Lemma load_breaks_bounds :
  let w := initial_world true (λ _ _, false) (config_json (PFloat 10) (PFloat 5)) true 0%float in
  config_in_bounds w = true
  ∧ pulse_duration (run load_config w) = PFloat 10
  ∧ config_in_bounds (run load_config w) = false.
Proof. vm_compute. repeat split; reflexivity. Qed.

(** The part of C6 that holds, and the extent of what does not.  A runtime
    update keeps both values within their bounds: a field is assigned only
    when it passes its test, and a field out of range leaves the value in
    force unchanged.  The start-up load tests nothing: it keeps the bounds
    exactly when the stored [pulse_duration] is within them (or the file is
    missing or unusable, which gives 0.5), as is the case of every file that
    [save_config] wrote from values within bounds. *)
Theorem config_bounds (fos : string → result float) (host : wifi_host) (w : world) :
  config_in_bounds w = true →
  (∀ path f,
     config_in_bounds (run (WebHandler.do_POST fos host path f) w) = true)
  ∧ (∀ params x y,
       WebHandler.first_param params "pulse_duration" [PFloat 0.5]
         ≫= WebHandler.py_float fos = Ok x →
       WebHandler.first_param params "relay1_delay" [PFloat 5.0]
         ≫= WebHandler.py_float fos = Ok y →
       let w' := run (WebHandler.do_POST fos host "/set-pulse" (Form params)) w in
       ((0.1 <=? x)%float && (x <=? 5)%float = false →
        pulse_duration w' = pulse_duration w)
       ∧ ((0 <=? y)%float && (y <=? 30)%float = false →
          relay1_delay w' = relay1_delay w))
  ∧ (config_in_bounds (run load_config w)
     = match config_file w with
       | Content (PDict c) =>
           within 0.1 5 (from_option id (PFloat 0.5) (c !! "pulse_duration"))
       | _ => true
       end)
  ∧ (∀ w0, config_in_bounds w0 = true → fs_writable w0 = true →
       config_file w = config_file (run save_config w0) →
       config_in_bounds (run load_config w) = true).
Proof.
  intros Hw.
  assert (Hdelay : within 0 30 (PFloat (relay1_delay w)) = true).
  { unfold config_in_bounds in Hw. apply andb_true_iff in Hw. tauto. }
  assert (Hload : config_in_bounds (run load_config w)
     = match config_file w with
       | Content (PDict c) =>
           within 0.1 5 (from_option id (PFloat 0.5) (c !! "pulse_duration"))
       | _ => true
       end).
  { rewrite load_config_run. unfold config_in_bounds.
    destruct (config_file w) as [| |v]; [exact Hw| |].
    - cbn [pulse_duration relay1_delay set_pulse_duration]. rewrite Hdelay. reflexivity.
    - destruct v; cbn [pulse_duration relay1_delay set_pulse_duration];
        rewrite Hdelay; try reflexivity. apply andb_true_r. }
  split; [|split; [|split]].
  - intros path f.
    destruct (String.eqb path "/wifi/connect") eqn:Hwifi.
    { apply String.eqb_eq in Hwifi. subst path.
      destruct (wifi_connect_run fos host f w) as (b & cmds & answers & -> & _).
      destruct b; exact Hw. }
    destruct (String.eqb path "/set-pulse") eqn:Hpath.
    + apply String.eqb_eq in Hpath. subst path.
      destruct f as [e|params]; [exact Hw|].
      destruct (WebHandler.first_param params "pulse_duration" [PFloat 0.5]
                  ≫= WebHandler.py_float fos) as [x|e] eqn:Hx;
        [|rewrite set_pulse_unparsed; eauto].
      destruct (WebHandler.first_param params "relay1_delay" [PFloat 5.0]
                  ≫= WebHandler.py_float fos) as [y|e] eqn:Hy;
        [|rewrite set_pulse_unparsed; eauto].
      rewrite (set_pulse_run fos host params w x y Hx Hy). cbv zeta.
      unfold config_in_bounds in *. apply andb_true_iff in Hw. destruct Hw as [Hpd _].
      destruct ((0.1 <=? x)%float && (x <=? 5)%float) eqn:Cx;
        destruct ((0 <=? y)%float && (y <=? 30)%float) eqn:Cy;
        destruct (fs_writable w); world_simpl;
        change (within 0.1 5 (PFloat x)) with ((0.1 <=? x)%float && (x <=? 5)%float);
        change (within 0 30 (PFloat y)) with ((0 <=? y)%float && (y <=? 30)%float);
        rewrite ?Cx, ?Cy, ?Hpd, ?Hdelay; reflexivity.
    + unfold run, WebHandler.do_POST. rewrite Hwifi, Hpath. exact Hw.
  - intros params x y Hx Hy w'. subst w'.
    rewrite (set_pulse_run fos host params w x y Hx Hy). cbv zeta.
    split; intros C; rewrite ?C;
      destruct ((0.1 <=? x)%float && (x <=? 5)%float);
      destruct ((0 <=? y)%float && (y <=? 30)%float);
      destruct (fs_writable w); try discriminate; reflexivity.
  - exact Hload.
  - intros w0 Hw0 Hwr Hfile. rewrite Hload, Hfile, save_config_run, Hwr.
    cbn [config_file set_config_file config_record].
    rewrite lookup_insert_eq. cbn [from_option id].
    unfold config_in_bounds in Hw0. apply andb_true_iff in Hw0. tauto.
Qed.

Lemma config_bounds_witness :
  let w' := run (WebHandler.do_POST float_literal accepting_wifi "/set-pulse"
                   (Form (set_pulse_form "10" "12"))) idle_world in
  config_in_bounds w' = true
  ∧ pulse_duration w' = pulse_duration idle_world
  ∧ config_in_bounds (run load_config idle_world) = true.
Proof.
  destruct (config_bounds float_literal accepting_wifi idle_world eq_refl)
    as (Hkeep & Hreject & Hload & _).
  split; [|split].
  - apply Hkeep.
  - apply (Hreject (set_pulse_form "10" "12") 10%float 12%float); reflexivity.
  - rewrite Hload. reflexivity.
Defined.

(** C10.  In one [/set-pulse] request the two fields are tested and applied
    independently: each is assigned exactly when it passes its own test, the
    other keeping or changing its value on its own account, and the record
    that results, mixed or not, is the one written to the configuration
    file: a JSON object with the two keys [pulse_duration] and [relay1_delay]
    holding the two values in force after the request. *)
Theorem fields_checked_independently (fos : string → result float) (host : wifi_host)
    (params : gmap string (list string)) (w : world) (x y : float) :
  WebHandler.first_param params "pulse_duration" [PFloat 0.5]
    ≫= WebHandler.py_float fos = Ok x →
  WebHandler.first_param params "relay1_delay" [PFloat 5.0]
    ≫= WebHandler.py_float fos = Ok y →
  fs_writable w = true →
  let w' := run (WebHandler.do_POST fos host "/set-pulse" (Form params)) w in
  pulse_duration w'
  = (if (0.1 <=? x)%float && (x <=? 5)%float then PFloat x else pulse_duration w)
  ∧ relay1_delay w'
    = (if (0 <=? y)%float && (y <=? 30)%float then y else relay1_delay w)
  ∧ config_file w'
    = Content (PDict (<["pulse_duration" := pulse_duration w']>
                      (<["relay1_delay" := PFloat (relay1_delay w')]> ∅)))
  ∧ responses w' = responses w ++ [response_302].
Proof.
  intros Hx Hy Hwr w'. subst w'.
  rewrite (set_pulse_run fos host params w x y Hx Hy), Hwr. cbv zeta.
  destruct ((0.1 <=? x)%float && (x <=? 5)%float);
    destruct ((0 <=? y)%float && (y <=? 30)%float); repeat split; reflexivity.
Qed.

Lemma fields_checked_independently_witness :
  let w1 := run (WebHandler.do_POST float_literal accepting_wifi "/set-pulse"
                   (Form (set_pulse_form "10" "12"))) idle_world in
  let w2 := run (WebHandler.do_POST float_literal accepting_wifi "/set-pulse"
                   (Form (set_pulse_form "2.5" "45"))) idle_world in
  (pulse_duration w1 = PFloat 0.5 ∧ relay1_delay w1 = 12%float
   ∧ config_file w1
     = Content (PDict (<["pulse_duration" := PFloat 0.5]>
                       (<["relay1_delay" := PFloat 12]> ∅))))
  ∧ (pulse_duration w2 = PFloat 2.5 ∧ relay1_delay w2 = 5%float
     ∧ config_file w2
       = Content (PDict (<["pulse_duration" := PFloat 2.5]>
                         (<["relay1_delay" := PFloat 5]> ∅)))).
Proof.
  intros w1 w2.
  pose proof (fields_checked_independently float_literal accepting_wifi
                (set_pulse_form "10" "12") idle_world 10 12 eq_refl eq_refl eq_refl)
    as (H1 & H2 & H3 & _).
  pose proof (fields_checked_independently float_literal accepting_wifi
                (set_pulse_form "2.5" "45") idle_world 2.5 45 eq_refl eq_refl eq_refl)
    as (H4 & H5 & H6 & _).
  fold w1 in H1, H2, H3. fold w2 in H4, H5, H6.
  rewrite H1, H2 in H3. rewrite H4, H5 in H6.
  repeat split; assumption.
Defined.

(** ** C7: the configuration at start-up *)

(** [load_config] never assigns the global [relay1_delay]. *)
Lemma load_config_keeps_relay1_delay (w : world) :
  relay1_delay (run load_config w) = relay1_delay w.
Proof.
  rewrite load_config_run.
  destruct (config_file w) as [| |v]; try reflexivity. destruct v; reflexivity.
Qed.

(** The part of C7 that holds: when the file is missing or cannot be used,
    both values are the defaults after start-up. *)
Lemma load_failure_defaults (gpio : bool) (raises : Z → bool → bool)
    (f : file) (writable : bool) (t0 : float) :
  (∀ c, f ≠ Content (PDict c)) →
  let w := run load_config (initial_world gpio raises f writable t0) in
  pulse_duration w = PFloat 0.5 ∧ relay1_delay w = 5%float.
Proof.
  intros Hf w. subst w. rewrite load_config_run. cbn [config_file initial_world].
  destruct f as [| |v]; try (split; reflexivity).
  destruct v; try (split; reflexivity). exfalso. eapply Hf. reflexivity.
Qed.

(** C7, the code at the failing input.  The stored record holds
    [pulse_duration = 1.0] and [relay1_delay = 10.0].  After [load_config] the
    pulse duration is the stored one, but the start delay is still the
    default 5.0: line 60 assigns a local variable, [relay1_delay] being
    absent from the [global] statement of line 54.  A start event handled
    right after start-up therefore fires its pulse at 5 s, not at 10 s. *)
Theorem loaded_start_delay_is_ignored :
  let stored := config_json (PFloat 1) (PFloat 10) in
  let w := run load_config (initial_world true (λ _ _, false) stored true 0%float) in
  let w' := run (SmartRaceDataHandler.do_POST lenient (Payload (start_event (PInt 60)))) w in
  pulse_duration w = PFloat 1
  ∧ relay1_delay w = 5%float
  ∧ threads_started w' = [ThreadArgs RELAY1_PIN "Relay 1" "VSC Start" 5%float]
  ∧ vsc_end_time w' = Some 65%float.
Proof. vm_compute. repeat split; reflexivity. Qed.

(** ** The timer thread running alone *)

Lemma monitor_iteration_exec (w : world) :
  exec monitor_iteration w =
  (Ok tt,
   match vsc_active w, vsc_end_time w with
   | true, Some deadline =>
       if (deadline <=? clock w)%float
       then set_clock (clock w + 0.1)%float
              (set_vsc_end_time None
                 (set_vsc_active false
                    (set_threads_started (threads_started w ++ [timer_pulse (clock w)]) w)))
       else set_clock (clock w + 0.1)%float w
   | _, _ => set_clock (clock w + 0.1)%float w
   end).
Proof.
  unfold monitor_iteration. prog_simpl.
  destruct (vsc_active w); prog_simpl; [|reflexivity].
  destruct (vsc_end_time w) as [deadline|] eqn:He; prog_simpl; [|reflexivity].
  cbn [bool_decide decide_rel is_Some_dec]. prog_simpl. rewrite He.
  cbn [time_ge]. prog_simpl.
  destruct (deadline <=? clock w)%float; reflexivity.
Qed.

Lemma monitor_vsc_timer_S (n : nat) (w : world) :
  run (monitor_vsc_timer (S n)) w = run (monitor_vsc_timer n) (run monitor_iteration w).
Proof.
  unfold run. cbn [monitor_vsc_timer]. rewrite exec_bind, monitor_iteration_exec.
  reflexivity.
Qed.

(** Once the window is closed the timer starts nothing and leaves it
    closed. *)
Lemma timer_idle (n : nat) (w : world) :
  vsc_active w = false →
  let w' := run (monitor_vsc_timer n) w in
  threads_started w' = threads_started w
  ∧ vsc_active w' = false
  ∧ vsc_end_time w' = vsc_end_time w.
Proof.
  revert w. induction n as [|n IH]; intros w Hidle; [repeat split; assumption|].
  cbv zeta. rewrite monitor_vsc_timer_S.
  unfold run at 2 4 6. rewrite monitor_iteration_exec, Hidle. cbn [snd].
  apply (IH (set_clock (clock w + 0.1)%float w)). exact Hidle.
Qed.

(** With a window open and nothing but the timer running, the end pulse is
    started at the first test that finds the deadline reached, and only
    there; the window is closed from then on. *)
Lemma timer_fires_once (n : nat) (w : world) (deadline : float) :
  vsc_active w = true → vsc_end_time w = Some deadline →
  let w' := run (monitor_vsc_timer n) w in
  let hit := find (λ t, (deadline <=? t)%float) (ticks (clock w) n) in
  threads_started w' = threads_started w ++ from_option (λ t, [timer_pulse t]) [] hit
  ∧ vsc_active w' = negb (bool_decide (is_Some hit))
  ∧ vsc_end_time w' = from_option (λ _, None) (Some deadline) hit.
Proof.
  revert w. induction n as [|n IH]; intros w Hact Hend.
  { cbn. rewrite app_nil_r. repeat split; assumption. }
  cbv zeta. rewrite monitor_vsc_timer_S.
  unfold run at 2 4 6. rewrite monitor_iteration_exec, Hact, Hend. cbn [snd ticks find].
  destruct (deadline <=? clock w)%float eqn:Hle.
  - cbn [from_option]. 
    match goal with |- context [run _ ?w1] =>
      destruct (timer_idle n w1 eq_refl) as (Ht & Ha & He) end.
    rewrite Ht, Ha, He. repeat split; reflexivity.
  - apply (IH (set_clock (clock w + 0.1)%float w)); assumption.
Qed.

(** ** C4: the timeline of a start event *)

(** The states of a sequence and of a [try]. *)
Lemma states_bind {A B : Type} (p : prog A) (g : A → prog B) (w : world) :
  states (p ≫= g) w
  = states p w ++ match exec p w with
                  | (Ok a, w') => states (g a) w'
                  | (Raised _, _) => []
                  end.
Proof.
  unfold mbind, prog_bind.
  revert w. induction p as [a|e|u k IH|d k IH]; intros w; cbn [bind states exec app].
  - reflexivity.
  - reflexivity.
  - rewrite IH. reflexivity.
  - rewrite IH. reflexivity.
Qed.

Lemma states_try_except {A : Type} (p : prog A) (h : exn → prog A) (w : world) :
  states (try_except p h) w
  = states p w ++ match exec p w with
                  | (Ok _, _) => []
                  | (Raised e, w') => states (h e) w'
                  end.
Proof.
  revert w. induction p as [a|e|u k IH|d k IH]; intros w;
    cbn [try_except states exec app].
  - reflexivity.
  - reflexivity.
  - rewrite IH. reflexivity.
  - rewrite IH. reflexivity.
Qed.

Lemma states_lift {A : Type} (r : result A) (w : world) : states (lift r) w = [].
Proof. destruct r; reflexivity. Qed.

(** The states that the branch of a start event goes through when the
    duration is a number. *)
Lemma states_vsc_deployed (ftr : float → bool) (data v : pyval) (f : float) (w : world) :
  vsc_duration data = Ok v → as_float v = Ok f →
  (0 <=? relay1_delay w)%float = true →
  let t := (clock w + relay1_delay w)%float in
  let w1 := set_clock t w in
  let w2 := set_threads_started
              (threads_started w ++ [ThreadArgs RELAY1_PIN "Relay 1" "VSC Start" t]) w1 in
  let w3 := set_vsc_active true w2 in
  let w4 := set_vsc_end_time (Some (t + f)%float) w3 in
  states (SmartRaceDataHandler.vsc_deployed ftr data) w = [w; w1; w2; w3; w3; w4; w4].
Proof.
  intros Hv Hf Hdelay. cbv zeta. unfold SmartRaceDataHandler.vsc_deployed.
  rewrite states_bind, states_lift, exec_lift, Hv. cbn [app].
  rewrite states_bind, states_lift, exec_lift, (number_prints _ _ Hf). cbn [app].
  prog_unfold. cbn [bind states lift as_float]. world_simpl.
  rewrite Hdelay. cbn [bind states lift]. world_simpl. rewrite Hf.
  cbn [bind states lift from_option]. world_simpl.
  rewrite states_lift. reflexivity.
Qed.

(** The states that the handler goes through on a start event: those in
    which it records the event, those of the branch of lines 317-336, and the
    one that the answer leaves. *)
Lemma states_start_event (ftr : float → bool) (w : world) (d : gmap string pyval)
    (et : pyval) :
  event_type_of (PDict d) = Ok et → py_in et VSC_START_EVENTS = true →
  let w0 := logged (Event (clock w) et (PDict d)) w in
  ∃ recorded,
    states (SmartRaceDataHandler.do_POST ftr (Payload (PDict d))) w
    = recorded ++ states (SmartRaceDataHandler.vsc_deployed ftr (PDict d)) w0
      ++ [run (SmartRaceDataHandler.do_POST ftr (Payload (PDict d))) w]
    ∧ Forall (λ w1, threads_started w1 = threads_started w
                    ∧ vsc_active w1 = vsc_active w
                    ∧ vsc_end_time w1 = vsc_end_time w
                    ∧ clock w1 = clock w) recorded.
Proof.
  intros Het Hs w0. rewrite (start_event_exec ftr w d et Het Hs). fold w0.
  unfold SmartRaceDataHandler.do_POST. rewrite states_try_except.
  rewrite states_bind, exec_bind. cbn [json_loads lift exec states app].
  rewrite states_bind, exec_bind, Het. cbn [lift exec states app].
  rewrite states_bind, exec_bind. unfold time_time, read. cbn [exec states id app].
  cbv zeta. rewrite states_bind, exec_bind. unfold write. cbn [exec states app].
  rewrite states_bind, exec_bind, exec_log_event. fold w0.
  rewrite states_bind, exec_bind, states_lift, exec_lift, (start_prints _ Hs), Hs.
  cbn [app]. rewrite states_bind, exec_bind.
  exists (w :: set_last_smartrace_event (Some (Event (clock w) et (PDict d))) w
            :: states (log_event (Event (clock w) et (PDict d)))
                      (set_last_smartrace_event (Some (Event (clock w) et (PDict d))) w)).
  split.
  - cbn [app]. do 2 f_equal. rewrite <- !app_assoc. do 2 f_equal.
    destruct (exec (SmartRaceDataHandler.vsc_deployed ftr (PDict d)) w0) as [[[]|e] w5];
      unfold answered, send; cbn [fst snd exec states app]; reflexivity.
  - constructor; [repeat split; reflexivity|].
    constructor; [repeat split; reflexivity|].
    unfold log_event. prog_unfold. cbn [bind states]. world_simpl.
    destruct (_ <? _)%nat; cbn [states]; repeat constructor.
Qed.

(** The duration at either of its two places in the payload is the value
    that lines 318-322 bind. *)
Lemma payload_duration (d : gmap string pyval) (v : pyval) :
  (∃ e inner, d !! "event" = Some (PDict e) ∧ e !! "data" = Some (PDict inner)
              ∧ inner !! "duration" = Some v)
  ∨ (∃ outer, d !! "event" = None ∧ d !! "data" = Some (PDict outer)
              ∧ outer !! "duration" = Some v) →
  vsc_duration (PDict d) = Ok v.
Proof.
  intros [(e & inner & He & Hi & Hv)|(outer & He & Ho & Hv)];
    unfold vsc_duration; cbn; rewrite He; cbn.
  - rewrite Hi. cbn.
    destruct (Nat.eqb_spec (size inner) 0) as [E|_]; cbn.
    + apply map_size_empty_inv in E. subst inner. rewrite lookup_empty in Hv.
      discriminate Hv.
    + rewrite Hv. reflexivity.
  - rewrite lookup_empty. cbn. rewrite map_size_empty. cbn.
    rewrite Ho. cbn. rewrite Hv. reflexivity.
Qed.

(** A pulse with the GPIO present, a driver that does not raise and a valid
    duration: on, then off after the duration. *)
Lemma pulse_relay_done (w : world) (relay_pin : Z) (relay_name source : string)
    (pd : float) :
  GPIO_AVAILABLE w = true →
  gpio_raises w relay_pin true = false → gpio_raises w relay_pin false = false →
  pulse_duration w = PFloat pd → (0 <=? pd)%float = true →
  let o := exec (pulse_relay relay_pin relay_name source) w in
  o.1 = Ok true
  ∧ gpio_calls o.2
    = gpio_calls w ++ [GpioCall (clock w) relay_pin true false;
                       GpioCall (clock w + pd)%float relay_pin false false].
Proof.
  intros Hgpio Hon Hoff Hpd Hpd0. cbv zeta. unfold pulse_relay. prog_simpl.
  rewrite Hgpio. prog_simpl. rewrite Hon. prog_simpl.
  destruct (relay_pin =? RELAY1_PIN); prog_simpl;
    rewrite Hpd; prog_simpl; rewrite Hpd0; prog_simpl; rewrite Hoff; prog_simpl;
    rewrite <- app_assoc; split; reflexivity.
Qed.

(** C4.  A start event whose payload holds the number [f] as duration, in
    the nested [event.data] object or, [event] being absent, in the top-level
    [data] object, is handled in this order.  First the handler waits: the
    states it goes through have no pulse started and the window as it was, up
    to the one in which the clock reads [t = arrival + relay1_delay].  Then it
    starts the Relay 1 pulse thread, at [t], the deadline still being the
    previous one.  Then it opens the window, with the deadline [t + f], and
    answers.  The pulse thread that the program runs for it switches the relay
    on at [t] and off at [t + pulse_duration].  With no withdraw event, the
    timer thread starts the end pulse at its first test at or after the
    deadline, and at no other.  In the scenario of the specification (start
    delay 5, pulse duration 0.5, duration 60, start event at time 0), run
    thread by thread under the scheduler: on at 5, off at 5.5, deadline 65,
    end pulse on at 65 and off at 65.5. *)
Theorem start_event_timeline (ftr : float → bool) (w : world)
    (d : gmap string pyval) (et v : pyval) (f pd : float) (n : nat) :
  event_type_of (PDict d) = Ok et → py_in et VSC_START_EVENTS = true →
  (∃ e inner, d !! "event" = Some (PDict e) ∧ e !! "data" = Some (PDict inner)
              ∧ inner !! "duration" = Some v)
  ∨ (∃ outer, d !! "event" = None ∧ d !! "data" = Some (PDict outer)
              ∧ outer !! "duration" = Some v) →
  as_float v = Ok f →
  (0 <=? relay1_delay w)%float = true →
  GPIO_AVAILABLE w = true →
  gpio_raises w RELAY1_PIN true = false → gpio_raises w RELAY1_PIN false = false →
  pulse_duration w = PFloat pd → (0.1 <=? pd)%float = true → (pd <=? 5)%float = true →
  let t := (clock w + relay1_delay w)%float in
  let handler := SmartRaceDataHandler.do_POST ftr (Payload (PDict d)) in
  let w1 := run handler w in
  (∃ waiting fired opened,
     states handler w = waiting ++ fired ++ opened
     ∧ Forall (λ s, threads_started s = threads_started w
                    ∧ vsc_active s = vsc_active w
                    ∧ vsc_end_time s = vsc_end_time w) waiting
     ∧ clock <$> last waiting = Some t
     ∧ fired ≠ []
     ∧ Forall (λ s, clock s = t
                    ∧ threads_started s = threads_started w ++ [start_pulse t]
                    ∧ vsc_end_time s = vsc_end_time w) fired
     ∧ last opened = Some w1
     ∧ Forall (λ s, clock s = t
                    ∧ threads_started s = threads_started w ++ [start_pulse t]
                    ∧ vsc_active s = true
                    ∧ vsc_end_time s = Some (t + f)%float) opened)
  ∧ clock w1 = t
  ∧ threads_started w1 = threads_started w ++ [start_pulse t]
  ∧ vsc_active w1 = true
  ∧ vsc_end_time w1 = Some (t + f)%float
  ∧ pulse_threads (spawn (boot w1))
    = map pulse_thread (threads_started w ++ [start_pulse t])
  ∧ gpio_calls (run (code (pulse_thread (start_pulse t))) w1)
    = gpio_calls w ++ [GpioCall t RELAY1_PIN true false;
                       GpioCall (t + pd)%float RELAY1_PIN false false]
  ∧ threads_started (run (monitor_vsc_timer n) w1)
    = threads_started w1
      ++ from_option (λ tk, [timer_pulse tk]) []
           (find (λ tk, (t + f <=? tk)%float) (ticks t n))
  ∧ (let s1 := run_schedule lenient timeline_start (boot idle_world) in
     let s2 := run_schedule lenient timeline_end s1 in
     threads_started (shared s1) = [start_pulse 5]
     ∧ vsc_end_time (shared s1) = Some 65%float
     ∧ gpio_calls (shared s1)
       = [GpioCall 5 RELAY1_PIN true false; GpioCall 5.5 RELAY1_PIN false false]
     ∧ threads_started (shared s2) = [start_pulse 5; timer_pulse 65]
     ∧ vsc_active (shared s2) = false
     ∧ gpio_calls (shared s2)
       = [GpioCall 5 RELAY1_PIN true false; GpioCall 5.5 RELAY1_PIN false false;
          GpioCall 65 RELAY2_PIN true false; GpioCall 65.5 RELAY2_PIN false false]).
Proof.
  intros Het Hs Hpay Hf Hdelay Hgpio Hon Hoff Hpd Hlo Hhi t handler w1.
  pose proof (payload_duration d v Hpay) as Hv.
  pose proof (leb_tenth_nonneg pd Hlo) as Hpd0.
  pose proof (start_event_run ftr w d et v f Het Hs Hv Hf Hdelay) as Hrun.
  fold handler in Hrun. fold w1 in Hrun. cbv zeta in Hrun. fold t in Hrun.
  rewrite logged_eq in Hrun.
  assert (Hclock : clock w1 = t) by (rewrite Hrun; reflexivity).
  assert (Hth : threads_started w1 = threads_started w ++ [start_pulse t])
    by (rewrite Hrun; reflexivity).
  assert (Hact : vsc_active w1 = true) by (rewrite Hrun; reflexivity).
  assert (Hend : vsc_end_time w1 = Some (t + f)%float) by (rewrite Hrun; reflexivity).
  split; [|do 4 (split; [assumption|]); split; [|split; [|split]]].
  - destruct (states_start_event ftr w d et Het Hs) as (recorded & Hst & Hrec).
    cbv zeta in Hst. fold handler in Hst. fold w1 in Hst.
    assert (Hdelay0 : (0 <=? relay1_delay (logged (Event (clock w) et (PDict d)) w))%float
                      = true) by (rewrite logged_eq; exact Hdelay).
    rewrite (states_vsc_deployed ftr (PDict d) v f _ Hv Hf Hdelay0) in Hst.
    cbv zeta in Hst. rewrite logged_eq in Hst.
    cbn [clock relay1_delay threads_started set_smartrace_events_log
         set_last_smartrace_event] in Hst. fold t in Hst.
    match type of Hst with
    | _ = _ ++ [?a0; ?a1; ?a2; ?a3; ?a4; ?a5; ?a6] ++ [_] =>
        exists (recorded ++ [a0; a1]), [a2; a3; a4], [a5; a6; w1]
    end.
    split; [rewrite Hst, <- !app_assoc; reflexivity|].
    split.
    { apply Forall_app. split.
      - eapply Forall_impl; [exact Hrec|]. intros s (H1 & H2 & H3 & _). auto.
      - repeat constructor. }
    split; [rewrite last_app; reflexivity|].
    split; [discriminate|].
    split; [repeat constructor|].
    split; [reflexivity|].
    repeat constructor; assumption.
  - unfold spawn, boot. cbn [pulse_threads shared length drop app]. rewrite Hth.
    reflexivity.
  - unfold run. cbn [pulse_thread code start_pulse th_pin th_name th_source].
    rewrite exec_bind.
    assert (G1 : GPIO_AVAILABLE w1 = true) by (rewrite Hrun; exact Hgpio).
    assert (G2 : gpio_raises w1 RELAY1_PIN true = false) by (rewrite Hrun; exact Hon).
    assert (G3 : gpio_raises w1 RELAY1_PIN false = false) by (rewrite Hrun; exact Hoff).
    assert (G4 : pulse_duration w1 = PFloat pd) by (rewrite Hrun; exact Hpd).
    destruct (pulse_relay_done w1 RELAY1_PIN "Relay 1" "VSC Start" pd G1 G2 G3 G4 Hpd0)
      as (Hok & Hcalls).
    destruct (exec (pulse_relay RELAY1_PIN "Relay 1" "VSC Start") w1) as [o w2].
    cbn [fst snd] in *. subst o. cbn [exec snd]. rewrite Hcalls, Hclock.
    f_equal. rewrite Hrun. reflexivity.
  - destruct (timer_fires_once n w1 (t + f)%float Hact Hend) as (Htimer & _).
    rewrite Htimer, Hclock. reflexivity.
  - vm_compute. repeat split; reflexivity.
Qed.

(** The scenario of the specification, and a start event of the other
    shape: its type under [type], its duration of 45 s in [event.data].  The
    timer, polling from the end of the handler, finds the deadline 65 reached
    at its test of 65.000000000000583 (the sum of six hundred steps of
    0.1). *)
Lemma start_event_timeline_witness :
  let w1 := run (SmartRaceDataHandler.do_POST lenient (Payload (start_event (PInt 60))))
              idle_world in
  let w2 := run (SmartRaceDataHandler.do_POST lenient
                   (Payload (nested_start_event (PInt 45)))) idle_world in
  (clock w1 = 5%float
   ∧ threads_started w1 = [start_pulse 5]
   ∧ vsc_active w1 = true
   ∧ vsc_end_time w1 = Some 65%float
   ∧ gpio_calls (run (code (pulse_thread (start_pulse 5))) w1)
     = [GpioCall 5 RELAY1_PIN true false; GpioCall 5.5 RELAY1_PIN false false]
   ∧ threads_started (run (monitor_vsc_timer 700) w1)
     = [start_pulse 5; timer_pulse 65.000000000000583%float])
  ∧ (threads_started w2 = [start_pulse 5] ∧ vsc_end_time w2 = Some 50%float).
Proof.
  intros w1 w2.
  pose (d := <["event_type" := PStr "vsc_deployed"]>
               (<["data" := PDict (<["duration" := PInt 60]> ∅)]> ∅) : gmap string pyval).
  pose (d' := <["type" := PStr "vscDeployed"]>
                (<["event" := PDict (<["data" := PDict (<["duration" := PInt 45]> ∅)]> ∅)]>
                   ∅) : gmap string pyval).
  assert (Het : event_type_of (PDict d) = Ok (PStr "vsc_deployed"))
    by (vm_compute; reflexivity).
  assert (Het' : event_type_of (PDict d') = Ok (PStr "vscDeployed"))
    by (vm_compute; reflexivity).
  assert (Hpay : (∃ e inner, d !! "event" = Some (PDict e)
                             ∧ e !! "data" = Some (PDict inner)
                             ∧ inner !! "duration" = Some (PInt 60))
                 ∨ (∃ outer, d !! "event" = None ∧ d !! "data" = Some (PDict outer)
                             ∧ outer !! "duration" = Some (PInt 60))).
  { right. exists (<["duration" := PInt 60]> ∅). repeat split; vm_compute; reflexivity. }
  assert (Hpay' : (∃ e inner, d' !! "event" = Some (PDict e)
                              ∧ e !! "data" = Some (PDict inner)
                              ∧ inner !! "duration" = Some (PInt 45))
                  ∨ (∃ outer, d' !! "event" = None ∧ d' !! "data" = Some (PDict outer)
                              ∧ outer !! "duration" = Some (PInt 45))).
  { left. exists (<["data" := PDict (<["duration" := PInt 45]> ∅)]> ∅),
                 (<["duration" := PInt 45]> ∅).
    repeat split; vm_compute; reflexivity. }
  assert (Hf : as_float (PInt 60) = Ok 60%float) by (vm_compute; reflexivity).
  assert (Hf' : as_float (PInt 45) = Ok 45%float) by (vm_compute; reflexivity).
  pose proof (start_event_timeline lenient idle_world d (PStr "vsc_deployed") (PInt 60)
                60 0.5 700 Het eq_refl Hpay Hf eq_refl eq_refl eq_refl eq_refl eq_refl
                eq_refl eq_refl) as H.
  pose proof (start_event_timeline lenient idle_world d' (PStr "vscDeployed") (PInt 45)
                45 0.5 0 Het' eq_refl Hpay' Hf' eq_refl eq_refl eq_refl eq_refl eq_refl
                eq_refl eq_refl) as H'.
  cbv zeta in H, H'. fold (start_event (PInt 60)) in H. fold w1 in H.
  fold (nested_start_event (PInt 45)) in H'. fold w2 in H'.
  destruct H as (_ & H1 & H2 & H3 & H4 & _ & H5 & H6 & _).
  destruct H' as (_ & _ & H2' & _ & H4' & _).
  split; [|split; assumption].
  repeat split; assumption.
Defined.

(** ** C1: one end pulse per window *)

(** C1, counterexample.  One start event has opened one window.  At the
    deadline the timer makes its test, the handler of a withdraw event runs
    between that test and the timer's pulse, and both start a Relay 2 pulse:
    two end pulses for the one window.  Run side by side, the two pulse
    threads switch the relay on twice in a row. *)
Lemma end_pulse_fired_twice :
  let s := run_schedule lenient race_schedule (boot window_open) in
  let s' := run_schedule lenient race_pulses s in
  vsc_active window_open = true
  ∧ vsc_end_time window_open = Some 65%float
  ∧ end_pulses window_open = 0%nat
  ∧ threads_started (shared s)
    = [ThreadArgs RELAY1_PIN "Relay 1" "VSC Start" 5;
       ThreadArgs RELAY2_PIN "Relay 2" "VSC Manual Retract" 65;
       ThreadArgs RELAY2_PIN "Relay 2" "VSC Timer End" 65]
  ∧ end_pulses (shared s) = 2%nat
  ∧ gpio_calls (shared s')
    = [GpioCall 65 RELAY2_PIN true false; GpioCall 65 RELAY2_PIN true false;
       GpioCall 65.5 RELAY2_PIN false false; GpioCall 65.5 RELAY2_PIN false false].
Proof. vm_compute. repeat split; reflexivity. Qed.

(** Without any race: a withdraw event handled after the timer has fired
    starts a second end pulse. *)
Lemma withdraw_after_expiry_fires_again :
  let w := run (monitor_vsc_timer 700) window_open in
  let w' := run (SmartRaceDataHandler.do_POST lenient (Payload withdraw_event)) w in
  end_pulses w = 1%nat ∧ vsc_active w = false ∧ end_pulses w' = 2%nat.
Proof. vm_compute. repeat split; reflexivity. Qed.

Lemma end_pulses_app (w : world) (l l' : list thread_args) :
  threads_started w = l ++ l' →
  end_pulses w = (length (filter (λ a, th_pin a = RELAY2_PIN) l)
                  + length (filter (λ a, th_pin a = RELAY2_PIN) l'))%nat.
Proof. unfold end_pulses. intros ->. rewrite filter_app, length_app. reflexivity. Qed.

(** C1, as amended.  With a window open: when only the timer runs, it starts
    the end pulse once, at its first test at or after the deadline, and the
    window is closed from then on; when a withdraw event is handled first,
    with no step of the timer in between, it starts the end pulse, closes the
    window, and the timer starts none afterwards.  Nothing makes the test and
    the clearing of the window atomic, and the withdraw handler fires in any
    case. *)
Theorem end_pulse_once_without_overlap (ftr : float → bool) (w : world)
    (deadline : float) (n : nat) :
  vsc_active w = true → vsc_end_time w = Some deadline →
  (let w' := run (monitor_vsc_timer n) w in
   let hit := find (λ t, (deadline <=? t)%float) (ticks (clock w) n) in
   threads_started w' = threads_started w ++ from_option (λ t, [timer_pulse t]) [] hit
   ∧ end_pulses w' = (end_pulses w + if bool_decide (is_Some hit) then 1 else 0)%nat
   ∧ vsc_active w' = negb (bool_decide (is_Some hit)))
  ∧ (∀ d et,
       event_type_of (PDict d) = Ok et → py_in et VSC_END_EVENTS = true →
       let w' := run (monitor_vsc_timer n)
                   (run (SmartRaceDataHandler.do_POST ftr (Payload (PDict d))) w) in
       threads_started w'
       = threads_started w
         ++ [ThreadArgs RELAY2_PIN "Relay 2" "VSC Manual Retract" (clock w)]
       ∧ end_pulses w' = S (end_pulses w)
       ∧ vsc_active w' = false).
Proof.
  intros Hact Hend. split.
  - destruct (timer_fires_once n w deadline Hact Hend) as (Hth & Ha & _).
    cbv zeta in *. split; [exact Hth|]. split; [|exact Ha].
    rewrite (end_pulses_app _ _ _ Hth). unfold end_pulses. f_equal.
    destruct (find _ _); reflexivity.
  - intros d et Het Hwd. cbv zeta.
    rewrite (withdraw_event_run ftr w d et Het Hwd).
    match goal with |- context [run (monitor_vsc_timer n) ?w1] =>
      destruct (timer_idle n w1 eq_refl) as (Ht & Ha & _) end.
    cbv zeta in *. cbn [threads_started set_responses set_vsc_end_time
                        set_vsc_active set_threads_started] in Ht.
    split; [exact Ht|]. split; [|exact Ha].
    rewrite (end_pulses_app _ _ _ Ht). unfold end_pulses.
    change (length (filter _ [_])) with 1%nat. lia.
Qed.

Lemma end_pulse_once_without_overlap_witness :
  let w1 := run (monitor_vsc_timer 700) window_open in
  let w2 := run (monitor_vsc_timer 700)
              (run (SmartRaceDataHandler.do_POST lenient (Payload withdraw_event))
                 window_open) in
  (end_pulses w1 = 1%nat ∧ vsc_active w1 = false)
  ∧ (end_pulses w2 = 1%nat ∧ vsc_active w2 = false).
Proof.
  intros w1 w2.
  destruct (end_pulse_once_without_overlap lenient window_open 65%float 700
              eq_refl eq_refl) as (Htimer & Hwd).
  split.
  - destruct Htimer as (_ & Hn & Ha). fold w1 in Hn, Ha. split.
    + rewrite Hn. vm_compute. reflexivity.
    + rewrite Ha. vm_compute. reflexivity.
  - assert (Het : event_type_of withdraw_event = Ok (PStr "vsc_withdrawn"))
      by (vm_compute; reflexivity).
    destruct (Hwd _ (PStr "vsc_withdrawn") Het eq_refl) as (_ & Hn & Ha).
    fold withdraw_event in Hn, Ha. fold w2 in Hn, Ha. split; [|exact Ha].
    rewrite Hn. vm_compute. reflexivity.
Defined.

(** ** C5: the start delay and the other activities *)

(** C5, counterexample.  A start event arrives at time 0 and its handler
    goes to sleep for 5 s; a withdraw event arrives at time 1.  The data
    server, although scheduled, leaves it waiting: at time 1 no pulse has
    been started.  Once the delay is over the start pulse is started first,
    and the end pulse after it, at time 5. *)
Lemma withdraw_waits_for_the_delay :
  let s1 := run_schedule lenient withdraw_during_delay (boot idle_world) in
  let s2 := run_schedule lenient after_the_delay s1 in
  clock (shared s1) = 1%float
  ∧ backlog s1 = [Post (Payload withdraw_event)]
  ∧ wake (smartrace_thread s1) = Some 5%float
  ∧ threads_started (shared s1) = []
  ∧ threads_started (shared s2)
    = [ThreadArgs RELAY1_PIN "Relay 1" "VSC Start" 5;
       ThreadArgs RELAY2_PIN "Relay 2" "VSC Manual Retract" 5]
  ∧ backlog s2 = [].
Proof. vm_compute. repeat split; reflexivity. Qed.

Lemma serve_two (ftr : float → bool) (r1 r2 : request) (w : world) :
  run (start_smartrace_data_server ftr [Post r1; Post r2]) w
  = run (SmartRaceDataHandler.do_POST ftr r2) (run (SmartRaceDataHandler.do_POST ftr r1) w).
Proof.
  unfold run. cbn [start_smartrace_data_server].
  rewrite exec_bind.
  pose proof (do_POST_returns ftr r1 w) as H1.
  destruct (exec (SmartRaceDataHandler.do_POST ftr r1) w) as [o1 w1].
  cbn [fst snd] in *. subst o1. rewrite exec_bind.
  pose proof (do_POST_returns ftr r2 w1) as H2.
  destruct (exec (SmartRaceDataHandler.do_POST ftr r2) w1) as [o2 w2].
  cbn [fst snd] in *. subst o2. reflexivity.
Qed.

(** C5, as amended.  The start delay is a [time.sleep] inside the handler,
    and the data server runs one handler at a time.  A withdraw event that
    follows a start event is handled when the handler of the start event has
    returned: the start pulse is started first, at the end of the delay, then
    the end pulse, and the window is left closed.  As long as a handler has
    not finished, the data server takes nothing from the connections
    waiting, and a handler asleep in its delay does nothing at all before
    its wake-up time.  The timer is a thread of its own and is not held up:
    it can start the end pulse of an earlier window while a handler is in
    its delay. *)
Theorem delay_blocks_ingestion (ftr : float → bool) (w : world)
    (d1 d2 : gmap string pyval) (et1 et2 v : pyval) (f : float) :
  event_type_of (PDict d1) = Ok et1 → py_in et1 VSC_START_EVENTS = true →
  vsc_duration (PDict d1) = Ok v → as_float v = Ok f →
  event_type_of (PDict d2) = Ok et2 → py_in et2 VSC_END_EVENTS = true →
  (0 <=? relay1_delay w)%float = true →
  let t := (clock w + relay1_delay w)%float in
  (let w' := run (start_smartrace_data_server ftr
                    [Post (Payload (PDict d1)); Post (Payload (PDict d2))]) w in
   threads_started w'
   = threads_started w
     ++ [ThreadArgs RELAY1_PIN "Relay 1" "VSC Start" t;
         ThreadArgs RELAY2_PIN "Relay 2" "VSC Manual Retract" t]
   ∧ vsc_active w' = false
   ∧ vsc_end_time w' = None)
  ∧ (∀ s, finished (smartrace_thread s) = false →
       backlog (step ftr RunServer s) = backlog s)
  ∧ (∀ s until,
       wake (smartrace_thread s) = Some until →
       (until <=? clock (shared s))%float = false →
       shared (step ftr RunServer s) = shared s
       ∧ smartrace_thread (step ftr RunServer s) = smartrace_thread s
       ∧ backlog (step ftr RunServer s) = backlog s)
  ∧ (let s := run_schedule lenient timer_during_delay (boot early_window) in
     wake (smartrace_thread s) = Some 5%float
     ∧ threads_started (shared s) = [timer_pulse 3]).
Proof.
  intros Het1 Hs Hv Hf Het2 Hwd Hdelay t. split; [|split; [|split]].
  - cbv zeta. rewrite serve_two.
    rewrite (start_event_run ftr w d1 et1 v f Het1 Hs Hv Hf Hdelay). cbv zeta.
    fold t.
    match goal with |- context [run (SmartRaceDataHandler.do_POST ftr _) ?w1] =>
      rewrite (withdraw_event_run ftr w1 d2 et2 Het2 Hwd) end.
    world_simpl. rewrite <- app_assoc. repeat split; reflexivity.
  - intros s Hbusy. unfold step. rewrite Hbusy.
    destruct (step_thread (smartrace_thread s) (shared s)). reflexivity.
  - intros s until Hwake Hearly. unfold step, finished, step_thread.
    rewrite Hwake, Hearly. repeat split; reflexivity.
  - vm_compute. split; reflexivity.
Qed.

Lemma delay_blocks_ingestion_witness :
  let w' := run (start_smartrace_data_server lenient
                   [Post (Payload (start_event (PInt 60))); Post (Payload withdraw_event)])
              idle_world in
  threads_started w'
  = [ThreadArgs RELAY1_PIN "Relay 1" "VSC Start" 5;
     ThreadArgs RELAY2_PIN "Relay 2" "VSC Manual Retract" 5]
  ∧ vsc_active w' = false
  ∧ vsc_end_time w' = None.
Proof.
  intros w'.
  assert (Het1 : event_type_of (start_event (PInt 60)) = Ok (PStr "vsc_deployed"))
    by (vm_compute; reflexivity).
  assert (Hv : vsc_duration (start_event (PInt 60)) = Ok (PInt 60))
    by (vm_compute; reflexivity).
  assert (Hf : as_float (PInt 60) = Ok 60%float) by (vm_compute; reflexivity).
  assert (Het2 : event_type_of withdraw_event = Ok (PStr "vsc_withdrawn"))
    by (vm_compute; reflexivity).
  destruct (delay_blocks_ingestion lenient idle_world _ _ _ _ _ _
              Het1 eq_refl Hv Hf Het2 eq_refl eq_refl) as (H & _).
  exact H.
Defined.


(** * Further properties of the code *)

(** ** The handler of the data port *)

(** What the handler does to the state when the payload is a JSON object:
    the event is recorded, one answer is sent, and neither the
    configuration, nor the relay flags, nor the driver are touched. *)
Lemma do_POST_object_frame (ftr : float → bool) (d : gmap string pyval) (et : pyval)
    (w : world) :
  event_type_of (PDict d) = Ok et →
  let ev := Event (clock w) et (PDict d) in
  let w' := run (SmartRaceDataHandler.do_POST ftr (Payload (PDict d))) w in
  smartrace_events_log w' = smartrace_events_log (logged ev w)
  ∧ last_smartrace_event w' = Some ev
  ∧ pulse_duration w' = pulse_duration w ∧ relay1_delay w' = relay1_delay w
  ∧ config_file w' = config_file w ∧ fs_writable w' = fs_writable w
  ∧ GPIO_AVAILABLE w' = GPIO_AVAILABLE w ∧ gpio_raises w' = gpio_raises w
  ∧ gpio_calls w' = gpio_calls w
  ∧ relay1_state w' = relay1_state w ∧ relay2_state w' = relay2_state w
  ∧ (responses w' = responses w ++ [response_200]
     ∨ responses w' = responses w ++ [response_500]).
Proof.
  intros Het ev w'. subst w'. rewrite (do_POST_object_exec ftr d et w Het). fold ev.
  assert (Hlogged :
    last_smartrace_event (logged ev w) = Some ev
    ∧ pulse_duration (logged ev w) = pulse_duration w
    ∧ relay1_delay (logged ev w) = relay1_delay w
    ∧ config_file (logged ev w) = config_file w
    ∧ fs_writable (logged ev w) = fs_writable w
    ∧ GPIO_AVAILABLE (logged ev w) = GPIO_AVAILABLE w
    ∧ gpio_raises (logged ev w) = gpio_raises w
    ∧ gpio_calls (logged ev w) = gpio_calls w
    ∧ relay1_state (logged ev w) = relay1_state w
    ∧ relay2_state (logged ev w) = relay2_state w
    ∧ responses (logged ev w) = responses w).
  { unfold logged, run, log_event. prog_simpl.
    destruct (_ <? _)%nat; prog_simpl; repeat split; reflexivity. }
  destruct Hlogged as (L1 & L2 & L3 & L4 & L5 & L6 & L7 & L8 & L9 & L10 & L11).
  generalize dependent (logged ev w). intros w0 L1 L2 L3 L4 L5 L6 L7 L8 L9 L10 L11.
  unfold dispatch. rewrite exec_bind, exec_lift.
  destruct (print_fstring et) as [[]|x];
    [|unfold answered; world_simpl; rewrite L11; repeat split; auto].
  destruct (py_in et VSC_START_EVENTS).
  - rewrite exec_vsc_deployed.
    destruct (vsc_duration (PDict d)) as [v|e];
      [destruct (print_fstring v) as [[]|e];
       [destruct (sleep_arg _) as [delay|e];
        [cbv zeta; destruct (float_add _ v) as [t|e];
         [destruct (SmartRaceDataHandler.fromtimestamp ftr t)|]|]|]|];
      unfold answered; world_simpl; rewrite L11; repeat split; auto.
  - destruct (py_in et VSC_END_EVENTS).
    + rewrite exec_vsc_withdrawn. unfold answered; world_simpl; rewrite L11;
        repeat split; auto.
    + unfold answered; cbn [exec]; world_simpl; rewrite L11; repeat split; auto.
Qed.

(** A request that is not a JSON object is answered 500 and nothing else
    changes. *)
Lemma do_POST_rejected (ftr : float → bool) (r : request) (w : world) :
  (∀ d, r ≠ Payload (PDict d)) →
  run (SmartRaceDataHandler.do_POST ftr r) w
  = set_responses (responses w ++ [response_500]) w.
Proof.
  intros Hr. unfold run, SmartRaceDataHandler.do_POST.
  destruct r as [e|data]; [reflexivity|].
  destruct data; try reflexivity. exfalso. eapply Hr. reflexivity.
Qed.

Lemma request_cases (r : request) :
  (∃ d, r = Payload (PDict d)) ∨ (∀ d, r ≠ Payload (PDict d)).
Proof.
  destruct r as [e|data]; [right; discriminate|].
  destruct data; try (right; discriminate). left. eauto.
Qed.

Lemma logged_log (ev : event) (w : world) :
  smartrace_events_log (logged ev w)
  = (let l := smartrace_events_log w ++ [ev] in
     if (100 <? length l)%nat then tail l else l).
Proof.
  unfold logged, run. prog_simpl.
  destruct (_ <? _)%nat; reflexivity.
Qed.

(** X1.  The event log is a ring of 100 entries: when it holds at most 100
    events before a request, it holds at most 100 after it, whatever the
    request; a JSON object, of any classification, is appended as the newest
    entry, and the oldest entry is dropped when there were already 100. *)
Theorem event_log_is_a_ring (ftr : float → bool) (r : request) (w : world) :
  (length (smartrace_events_log w) ≤ 100)%nat →
  let w' := run (SmartRaceDataHandler.do_POST ftr r) w in
  (length (smartrace_events_log w') ≤ 100)%nat
  ∧ (∀ d et, r = Payload (PDict d) → event_type_of (PDict d) = Ok et →
       let ev := Event (clock w) et (PDict d) in
       last (smartrace_events_log w') = Some ev
       ∧ smartrace_events_log w'
         = if (length (smartrace_events_log w) =? 100)%nat
           then tail (smartrace_events_log w) ++ [ev]
           else smartrace_events_log w ++ [ev]).
Proof.
  intros Hlen w'. subst w'.
  assert (Hobj : ∀ d et, r = Payload (PDict d) → event_type_of (PDict d) = Ok et →
            smartrace_events_log (run (SmartRaceDataHandler.do_POST ftr r) w)
            = if (length (smartrace_events_log w) =? 100)%nat
              then tail (smartrace_events_log w) ++ [Event (clock w) et (PDict d)]
              else smartrace_events_log w ++ [Event (clock w) et (PDict d)]).
  { intros d et -> Het.
    destruct (do_POST_object_frame ftr d et w Het) as (Hlog & _).
    cbv zeta in Hlog. rewrite Hlog, logged_log. cbv zeta.
    rewrite length_app. cbn [length].
    destruct (Nat.eqb_spec (length (smartrace_events_log w)) 100) as [E|E].
    - rewrite E. cbn [Nat.ltb Nat.leb Nat.add].
      destruct (smartrace_events_log w); [discriminate|reflexivity].
    - destruct (Nat.ltb_spec 100 (length (smartrace_events_log w) + 1)); [lia|reflexivity]. }
  split.
  - destruct (request_cases r) as [[d ->]|Hr].
    + destruct (event_type_of_dict d) as [et Het].
      rewrite (Hobj d et eq_refl Het).
      destruct (Nat.eqb_spec (length (smartrace_events_log w)) 100) as [E|E].
      * rewrite length_app. cbn [length].
        destruct (smartrace_events_log w); cbn [tail length] in *; lia.
      * rewrite length_app. cbn [length]. lia.
    + rewrite (do_POST_rejected ftr r w Hr). exact Hlen.
  - intros d et Hr Het ev. rewrite (Hobj d et Hr Het). split; [|reflexivity].
    destruct (_ =? _)%nat; apply last_snoc.
Qed.

Lemma event_log_is_a_ring_witness :
  let w' := run (SmartRaceDataHandler.do_POST lenient (Payload withdraw_event)) idle_world in
  (length (smartrace_events_log w') ≤ 100)%nat
  ∧ smartrace_events_log w' = [Event 0 (PStr "vsc_withdrawn") withdraw_event].
Proof.
  intros w'.
  assert (Hlen : (length (smartrace_events_log idle_world) ≤ 100)%nat) by (cbn; lia).
  destruct (event_log_is_a_ring lenient (Payload withdraw_event) idle_world Hlen)
    as (Hbound & Hnew).
  split; [exact Hbound|].
  assert (Het : event_type_of withdraw_event = Ok (PStr "vsc_withdrawn"))
    by (vm_compute; reflexivity).
  destruct (Hnew _ (PStr "vsc_withdrawn") eq_refl Het) as (_ & Hlog).
  exact Hlog.
Defined.

(** X2.  An event whose type is in neither list of names (lines 344-345)
    starts no pulse, leaves the window and the clock as they were and is
    recorded as the last event.  It is answered 200, unless its type is a
    string with a lone surrogate: the print of line 313 then raises, after
    the event has been recorded, and the answer is 500. *)
Theorem unknown_event_is_only_recorded (ftr : float → bool) (w : world)
    (d : gmap string pyval) (et : pyval) :
  event_type_of (PDict d) = Ok et →
  py_in et VSC_START_EVENTS = false → py_in et VSC_END_EVENTS = false →
  let w' := run (SmartRaceDataHandler.do_POST ftr (Payload (PDict d))) w in
  threads_started w' = threads_started w
  ∧ vsc_active w' = vsc_active w
  ∧ vsc_end_time w' = vsc_end_time w
  ∧ clock w' = clock w
  ∧ last_smartrace_event w' = Some (Event (clock w) et (PDict d))
  ∧ ((∀ s, et = PStr s → has_surrogate s = false) →
     responses w' = responses w ++ [response_200])
  ∧ (∀ s, et = PStr s → has_surrogate s = true →
     responses w' = responses w ++ [response_500]).
Proof.
  intros Het Hs He w'. subst w'.
  rewrite (unknown_event_run ftr w d et Het Hs He), logged_eq.
  do 5 (split; [reflexivity|]). split.
  - intros Hp. apply prints_iff in Hp. rewrite Hp. reflexivity.
  - intros s -> Hsur. rewrite (surrogate_raises s Hsur). reflexivity.
Qed.

Lemma unknown_event_is_only_recorded_witness :
  let d : gmap string pyval := <["type" := PStr "foo"]> ∅ in
  let bad : gmap string pyval := <["event_type" := PStr lone_surrogate]> ∅ in
  let w := window_open in
  let w' := run (SmartRaceDataHandler.do_POST lenient (Payload (PDict d))) w in
  let w'' := run (SmartRaceDataHandler.do_POST lenient (Payload (PDict bad))) w in
  (threads_started w' = threads_started w
   ∧ vsc_active w' = vsc_active w
   ∧ vsc_end_time w' = vsc_end_time w
   ∧ clock w' = clock w
   ∧ last_smartrace_event w' = Some (Event (clock w) (PStr "foo") (PDict d))
   ∧ responses w' = responses w ++ [response_200])
  ∧ (last_smartrace_event w'' = Some (Event (clock w) (PStr lone_surrogate) (PDict bad))
     ∧ responses w'' = responses w ++ [response_500]).
Proof.
  intros d bad w.
  assert (Het : event_type_of (PDict d) = Ok (PStr "foo")) by (vm_compute; reflexivity).
  assert (Hbad : event_type_of (PDict bad) = Ok (PStr lone_surrogate))
    by (vm_compute; reflexivity).
  split.
  - destruct (unknown_event_is_only_recorded lenient w d (PStr "foo") Het eq_refl eq_refl)
      as (H1 & H2 & H3 & H4 & H5 & H6 & _).
    do 5 (split; [assumption|]). apply H6.
    intros s Hs. injection Hs as <-. vm_compute. reflexivity.
  - destruct (unknown_event_is_only_recorded lenient w bad (PStr lone_surrogate)
                Hbad eq_refl eq_refl) as (_ & _ & _ & _ & H5 & _ & H7).
    split; [exact H5|]. exact (H7 lone_surrogate eq_refl eq_refl).
Defined.

(** X3.  No request to the data port, well formed or not, changes the
    configuration ([pulse_duration], [relay1_delay], the configuration
    file), the energized flags of the relays or the calls made to the GPIO
    driver: the handler only starts pulse threads. *)
Theorem events_leave_config_and_relays (ftr : float → bool) (r : request) (w : world) :
  let w' := run (SmartRaceDataHandler.do_POST ftr r) w in
  pulse_duration w' = pulse_duration w
  ∧ relay1_delay w' = relay1_delay w
  ∧ config_file w' = config_file w
  ∧ relay1_state w' = relay1_state w
  ∧ relay2_state w' = relay2_state w
  ∧ gpio_calls w' = gpio_calls w
  ∧ GPIO_AVAILABLE w' = GPIO_AVAILABLE w.
Proof.
  cbv zeta. destruct (request_cases r) as [[d ->]|Hr].
  - destruct (event_type_of_dict d) as [et Het].
    destruct (do_POST_object_frame ftr d et w Het)
      as (_ & _ & Hpd & Hdelay & Hfile & _ & Hgpio & _ & Hcalls & Hr1 & Hr2 & _).
    repeat split; assumption.
  - rewrite (do_POST_rejected ftr r w Hr). repeat split; reflexivity.
Qed.







(** X6.  A second start event re-arms the window: handled one after the
    other, two start events start two Relay 1 pulses, each at the end of its
    own delay, and leave a single window whose deadline is that of the second
    event; the deadline of the first is overwritten, not queued. *)
Theorem second_start_rearms_window (ftr : float → bool) (w : world)
    (d1 d2 : gmap string pyval) (et1 et2 v1 v2 : pyval) (f1 f2 : float) :
  event_type_of (PDict d1) = Ok et1 → py_in et1 VSC_START_EVENTS = true →
  vsc_duration (PDict d1) = Ok v1 → as_float v1 = Ok f1 →
  event_type_of (PDict d2) = Ok et2 → py_in et2 VSC_START_EVENTS = true →
  vsc_duration (PDict d2) = Ok v2 → as_float v2 = Ok f2 →
  (0 <=? relay1_delay w)%float = true →
  let t1 := (clock w + relay1_delay w)%float in
  let t2 := (t1 + relay1_delay w)%float in
  let w' := run (start_smartrace_data_server ftr
                   [Post (Payload (PDict d1)); Post (Payload (PDict d2))]) w in
  threads_started w'
  = threads_started w
    ++ [ThreadArgs RELAY1_PIN "Relay 1" "VSC Start" t1;
        ThreadArgs RELAY1_PIN "Relay 1" "VSC Start" t2]
  ∧ vsc_active w' = true
  ∧ vsc_end_time w' = Some (t2 + f2)%float.
Proof.
  intros Het1 Hs1 Hv1 Hf1 Het2 Hs2 Hv2 Hf2 Hdelay t1 t2 w'. subst w'.
  rewrite serve_two.
  rewrite (start_event_run ftr w d1 et1 v1 f1 Het1 Hs1 Hv1 Hf1 Hdelay). cbv zeta.
  fold t1.
  destruct (logged_frame (Event (clock w) et1 (PDict d1)) w) as (_ & Ld & _ & Lt & _).
  cbv zeta in Ld, Lt.
  match goal with |- context [run (SmartRaceDataHandler.do_POST ftr _) ?w1] =>
    assert (Hdelay1 : (0 <=? relay1_delay w1)%float = true)
      by (cbn [relay1_delay set_responses set_vsc_end_time set_vsc_active
               set_threads_started set_clock]; rewrite Ld; exact Hdelay);
    rewrite (start_event_run ftr w1 d2 et2 v2 f2 Het2 Hs2 Hv2 Hf2 Hdelay1)
  end.
  cbv zeta. world_simpl. rewrite Ld. fold t2.
  rewrite <- app_assoc. repeat split; reflexivity.
Qed.

Lemma second_start_rearms_window_witness :
  let w' := run (start_smartrace_data_server lenient
                   [Post (Payload (start_event (PInt 60))); Post (Payload (start_event (PFloat 30)))])
              idle_world in
  threads_started w'
  = [ThreadArgs RELAY1_PIN "Relay 1" "VSC Start" 5;
     ThreadArgs RELAY1_PIN "Relay 1" "VSC Start" 10]
  ∧ vsc_active w' = true
  ∧ vsc_end_time w' = Some 40%float.
Proof.
  intros w'.
  assert (Het1 : event_type_of (start_event (PInt 60)) = Ok (PStr "vsc_deployed"))
    by (vm_compute; reflexivity).
  assert (Hv1 : vsc_duration (start_event (PInt 60)) = Ok (PInt 60))
    by (vm_compute; reflexivity).
  assert (Hf1 : as_float (PInt 60) = Ok 60%float) by (vm_compute; reflexivity).
  assert (Het2 : event_type_of (start_event (PFloat 30)) = Ok (PStr "vsc_deployed"))
    by (vm_compute; reflexivity).
  assert (Hv2 : vsc_duration (start_event (PFloat 30)) = Ok (PFloat 30))
    by (vm_compute; reflexivity).
  exact (second_start_rearms_window lenient idle_world _ _ _ _ _ _ 60 30
           Het1 eq_refl Hv1 Hf1 Het2 eq_refl Hv2 eq_refl eq_refl).
Defined.

(** ** Pulses *)

(** X7.  [pulse_relay] never raises: whatever the driver does and whatever
    [pulse_duration] holds, it returns [True] or [False].  When the pulse
    duration in force is not an acceptable argument of [time.sleep] (a
    negative number, NaN, or a value that is not a number, as a configuration
    file can provide), the relay is switched on, the sleep raises, and the
    relay is never switched off: the function returns [False] with the
    output energized and its flag true. *)
Theorem pulse_with_bad_duration_stays_on (w : world) (relay_pin : Z)
    (relay_name source : string) :
  (∃ b, (exec (pulse_relay relay_pin relay_name source) w).1 = Ok b)
  ∧ (∀ e, GPIO_AVAILABLE w = true → gpio_raises w relay_pin true = false →
       sleep_arg (pulse_duration w) = Raised e →
       let w' := run (pulse_relay relay_pin relay_name source) w in
       (exec (pulse_relay relay_pin relay_name source) w).1 = Ok false
       ∧ gpio_calls w' = gpio_calls w ++ [GpioCall (clock w) relay_pin true false]
       ∧ relay_state relay_pin w' = true).
Proof.
  split.
  - unfold pulse_relay. rewrite exec_bind. unfold read at 1. cbn [exec id].
    destruct (GPIO_AVAILABLE w); [|eexists; reflexivity].
    rewrite exec_try_except.
    destruct (exec _ w) as [[b|e] w1]; eexists; reflexivity.
  - intros e Hgpio Hon Hbad. cbv zeta. unfold run, pulse_relay, relay_state.
    prog_simpl. rewrite Hgpio. prog_simpl. rewrite Hon. prog_simpl.
    unfold sleep_arg in Hbad. cbv [mbind result_bind] in Hbad.
    destruct (relay_pin =? RELAY1_PIN); prog_simpl;
      destruct (as_float (pulse_duration w)) as [f|e'];
      try destruct (0 <=? f)%float; try discriminate;
      prog_simpl; repeat split; reflexivity.
Qed.

Lemma pulse_with_bad_duration_stays_on_witness :
  let w := set_pulse_duration (PFloat (-1)) idle_world in
  let w' := run (pulse_relay RELAY2_PIN "Relay 2" "Manual Test") w in
  (exec (pulse_relay RELAY2_PIN "Relay 2" "Manual Test") w).1 = Ok false
  ∧ gpio_calls w' = [GpioCall 0 RELAY2_PIN true false]
  ∧ relay2_state w' = true.
Proof.
  intros w w'.
  destruct (pulse_with_bad_duration_stays_on w RELAY2_PIN "Relay 2" "Manual Test")
    as (_ & Hbad).
  exact (Hbad ValueError eq_refl eq_refl eq_refl).
Defined.

(** ** The configuration *)

(** X8.  What a restart keeps of the configuration.  When [save_config] can
    write the file, the program started again on that file has the saved
    [pulse_duration] in force, whatever its value; the saved [relay1_delay] is
    in the file but the start delay in force is 5.0 again. *)
Theorem restart_restores_pulse_duration_only (w0 : world) (gpio : bool)
    (raises : Z → bool → bool) (writable : bool) (t0 : float) :
  fs_writable w0 = true →
  let saved := config_file (run save_config w0) in
  let w := run load_config (initial_world gpio raises saved writable t0) in
  saved = config_json (pulse_duration w0) (PFloat (relay1_delay w0))
  ∧ pulse_duration w = pulse_duration w0
  ∧ relay1_delay w = 5%float.
Proof.
  intros Hwr saved w. subst saved w.
  rewrite save_config_run, Hwr. cbn [config_file set_config_file].
  split; [reflexivity|].
  rewrite load_config_run. cbn [config_file initial_world config_record].
  rewrite lookup_insert_eq. split; reflexivity.
Qed.

Lemma restart_restores_pulse_duration_only_witness :
  let w0 := set_relay1_delay 12 (set_pulse_duration (PFloat 2.5) idle_world) in
  let w := run load_config
             (initial_world true (λ _ _, false) (config_file (run save_config w0)) true 0) in
  pulse_duration w = PFloat 2.5 ∧ relay1_delay w = 5%float.
Proof.
  intros w0 w.
  destruct (restart_restores_pulse_duration_only w0 true (λ _ _, false) true 0 eq_refl)
    as (_ & Hpd & Hdelay).
  split; [exact Hpd|exact Hdelay].
Defined.

(** X9.  A [/set-pulse] form without one of its two fields does not leave
    that value alone: the default of the missing field (0.5 for the pulse
    duration, 5.0 for the start delay) is within bounds and is assigned in
    place of the value in force. *)
Theorem missing_field_resets_to_default (fos : string → result float) (host : wifi_host)
    (params : gmap string (list string)) (w : world) :
  (∀ y, params !! "pulse_duration" = None →
     WebHandler.first_param params "relay1_delay" [PFloat 5.0]
       ≫= WebHandler.py_float fos = Ok y →
     pulse_duration (run (WebHandler.do_POST fos host "/set-pulse" (Form params)) w)
     = PFloat 0.5)
  ∧ (∀ x, params !! "relay1_delay" = None →
       WebHandler.first_param params "pulse_duration" [PFloat 0.5]
         ≫= WebHandler.py_float fos = Ok x →
       relay1_delay (run (WebHandler.do_POST fos host "/set-pulse" (Form params)) w)
       = 5%float).
Proof.
  split.
  - intros y Hmiss Hy.
    assert (Hx : WebHandler.first_param params "pulse_duration" [PFloat 0.5]
                   ≫= WebHandler.py_float fos = Ok 0.5%float).
    { unfold WebHandler.first_param. rewrite Hmiss. reflexivity. }
    rewrite (set_pulse_run fos host params w _ y Hx Hy). cbv zeta.
    change ((0.1 <=? 0.5)%float && (0.5 <=? 5)%float) with true. cbv iota.
    destruct ((0 <=? y)%float && (y <=? 30)%float); destruct (fs_writable w); reflexivity.
  - intros x Hmiss Hx.
    assert (Hy : WebHandler.first_param params "relay1_delay" [PFloat 5.0]
                   ≫= WebHandler.py_float fos = Ok 5%float).
    { unfold WebHandler.first_param. rewrite Hmiss. reflexivity. }
    rewrite (set_pulse_run fos host params w x _ Hx Hy). cbv zeta.
    change ((0 <=? 5)%float && (5 <=? 30)%float) with true. cbv iota.
    destruct ((0.1 <=? x)%float && (x <=? 5)%float); destruct (fs_writable w); reflexivity.
Qed.

Lemma missing_field_resets_to_default_witness :
  let w := set_relay1_delay 12 (set_pulse_duration (PFloat 2.5) idle_world) in
  pulse_duration
    (run (WebHandler.do_POST float_literal accepting_wifi "/set-pulse"
            (Form (<["relay1_delay" := ["12"]]> ∅))) w)
  = PFloat 0.5
  ∧ relay1_delay
      (run (WebHandler.do_POST float_literal accepting_wifi "/set-pulse"
              (Form (<["pulse_duration" := ["2.5"]]> ∅))) w)
    = 5%float.
Proof.
  intros w. split.
  - apply (proj1 (missing_field_resets_to_default float_literal accepting_wifi _ w)
             12%float); vm_compute; reflexivity.
  - apply (proj2 (missing_field_resets_to_default float_literal accepting_wifi _ w)
             2.5%float); vm_compute; reflexivity.
Defined.

(** X10.  A [/set-pulse] request one of whose fields [float] refuses is
    dropped whole: neither field is assigned, even the valid one, nothing is
    saved, and no response at all is sent to the client. *)
Theorem unparsable_update_changes_nothing (fos : string → result float) (host : wifi_host)
    (params : gmap string (list string)) (w : world) (s : string) (rest : list string)
    (e : exn) :
  fos s = Raised e →
  params !! "pulse_duration" = Some (s :: rest)
  ∨ params !! "relay1_delay" = Some (s :: rest) →
  run (WebHandler.do_POST fos host "/set-pulse" (Form params)) w = w.
Proof.
  intros Hs [Hp|Hp]; apply set_pulse_unparsed; [left|right]; exists e;
    unfold WebHandler.first_param; rewrite Hp; cbn; exact Hs.
Qed.

Lemma unparsable_update_changes_nothing_witness :
  run (WebHandler.do_POST float_literal accepting_wifi "/set-pulse"
         (Form (set_pulse_form "2.5" "soon"))) idle_world
  = idle_world.
Proof.
  apply (unparsable_update_changes_nothing float_literal accepting_wifi _ idle_world
           "soon" [] ValueError);
    [reflexivity|right; vm_compute; reflexivity].
Defined.

(** X11.  No POST request to the web port touches the countdown or the
    relays: whatever the path and the form, read or not, the window, the
    pulse threads started, the energized flags, the driver calls, the event
    log and the configuration file's readability are as before.  The clock
    is as before too, but for [/wifi/connect], where [connect_to_wifi] sleeps
    two seconds once the connection is up (line 266). *)
Theorem web_post_leaves_countdown_alone (fos : string → result float) (host : wifi_host)
    (path : string) (f : form) (w : world) :
  let w' := run (WebHandler.do_POST fos host path f) w in
  vsc_active w' = vsc_active w
  ∧ vsc_end_time w' = vsc_end_time w
  ∧ threads_started w' = threads_started w
  ∧ relay1_state w' = relay1_state w
  ∧ relay2_state w' = relay2_state w
  ∧ gpio_calls w' = gpio_calls w
  ∧ smartrace_events_log w' = smartrace_events_log w
  ∧ (clock w' = clock w
     ∨ path = "/wifi/connect" ∧ clock w' = (clock w + 2)%float).
Proof.
  cbv zeta. destruct (String.eqb path "/wifi/connect") eqn:Hwifi.
  { apply String.eqb_eq in Hwifi. subst path.
    destruct (wifi_connect_run fos host f w) as (b & cmds & answers & -> & _).
    destruct b; repeat split; auto. }
  destruct (String.eqb path "/set-pulse") eqn:Hpath.
  - apply String.eqb_eq in Hpath. subst path.
    destruct f as [e|params]; [repeat split; auto|].
    destruct (WebHandler.first_param params "pulse_duration" [PFloat 0.5]
                ≫= WebHandler.py_float fos) as [x|e] eqn:Hx;
      [|rewrite set_pulse_unparsed; [repeat split; auto|eauto]].
    destruct (WebHandler.first_param params "relay1_delay" [PFloat 5.0]
                ≫= WebHandler.py_float fos) as [y|e] eqn:Hy;
      [|rewrite set_pulse_unparsed; [repeat split; auto|eauto]].
    rewrite (set_pulse_run fos host params w x y Hx Hy). cbv zeta.
    destruct ((0.1 <=? x)%float && (x <=? 5)%float);
      destruct ((0 <=? y)%float && (y <=? 30)%float);
      destruct (fs_writable w); repeat split; auto.
  - unfold run, WebHandler.do_POST. rewrite Hwifi, Hpath. repeat split; auto.
Qed.

(** ** Start-up of the GPIO and manual tests *)

(** X12.  [setup_gpio] never raises.  When it returns [True], both relay
    pins have been driven low, Relay 1 first.  When it returns [False] (no
    GPIO library, or a failure while configuring or while driving a pin) the
    program is in test mode from then on: [GPIO_AVAILABLE] is false and every
    pulse returns [True] without calling the driver or changing anything. *)
Theorem failed_setup_means_test_mode (configure_raises : bool) (w : world)
    (relay_pin : Z) (relay_name source : string) :
  let r := (exec (setup_gpio configure_raises) w).1 in
  let w1 := run (setup_gpio configure_raises) w in
  (r = Ok true ∨ r = Ok false)
  ∧ (r = Ok true →
     GPIO_AVAILABLE w1 = true
     ∧ gpio_calls w1 = gpio_calls w ++ [GpioCall (clock w) RELAY1_PIN false false;
                                         GpioCall (clock w) RELAY2_PIN false false])
  ∧ (r = Ok false →
     GPIO_AVAILABLE w1 = false
     ∧ exec (pulse_relay relay_pin relay_name source) w1 = (Ok true, w1)).
Proof.
  cbv zeta. unfold run, setup_gpio, pulse_relay. prog_simpl.
  destruct (GPIO_AVAILABLE w) eqn:Hgpio; prog_simpl.
  2:{ rewrite Hgpio. split; [right; reflexivity|].
      split; [discriminate|]. intros _. split; reflexivity. }
  destruct configure_raises; prog_simpl.
  { split; [right; reflexivity|]. split; [discriminate|]. intros _. split; reflexivity. }
  destruct (gpio_raises w RELAY1_PIN false) eqn:H1; prog_simpl.
  { split; [right; reflexivity|]. split; [discriminate|]. intros _. split; reflexivity. }
  destruct (gpio_raises w RELAY2_PIN false) eqn:H2; prog_simpl.
  { split; [right; reflexivity|]. split; [discriminate|]. intros _. split; reflexivity. }
  rewrite Hgpio. split; [left; reflexivity|]. split; [|discriminate].
  intros _. rewrite <- app_assoc. split; reflexivity.
Qed.

Lemma failed_setup_means_test_mode_witness :
  let w1 := run (setup_gpio true) idle_world in
  let w2 := run (setup_gpio false) idle_world in
  (GPIO_AVAILABLE w1 = false
   ∧ exec (pulse_relay RELAY1_PIN "Relay 1" "Manual Test") w1 = (Ok true, w1))
  ∧ (GPIO_AVAILABLE w2 = true
     ∧ gpio_calls w2 = [GpioCall 0 RELAY1_PIN false false; GpioCall 0 RELAY2_PIN false false]).
Proof.
  intros w1 w2. split.
  - destruct (failed_setup_means_test_mode true idle_world RELAY1_PIN "Relay 1" "Manual Test")
      as (_ & _ & Hfalse).
    exact (Hfalse eq_refl).
  - destruct (failed_setup_means_test_mode false idle_world RELAY1_PIN "Relay 1" "Manual Test")
      as (_ & Htrue & _).
    exact (Htrue eq_refl).
Defined.


(** ** The status page and the event log *)

Lemma rev_drop_snoc {A : Type} (l : list A) (x : A) (k : nat) :
  (k ≤ length l)%nat →
  ∃ rest, rev (drop k (l ++ [x])) = x :: rest ∧ length rest = (length l - k)%nat.
Proof.
  intros Hk. rewrite drop_app_le by exact Hk. rewrite rev_app_distr. cbn [rev app].
  eexists. split; [reflexivity|]. rewrite length_rev, length_drop. reflexivity.
Qed.

(** X14.  The "Recent Events" rows of the status page are at most five, and
    once a JSON object has been handled, whatever its classification and the
    outcome of its handling, the first row is that event, which is also
    [last_smartrace_event]. *)
Theorem newest_event_heads_the_page (ftr : float → bool) (d : gmap string pyval)
    (et : pyval) (w : world) :
  event_type_of (PDict d) = Ok et →
  let w' := run (SmartRaceDataHandler.do_POST ftr (Payload (PDict d))) w in
  (length (recent_events w') ≤ 5)%nat
  ∧ head (recent_events w') = Some (Event (clock w) et (PDict d))
  ∧ last_smartrace_event w' = head (recent_events w').
Proof.
  intros Het w'.
  destruct (do_POST_object_frame ftr d et w Het) as (Hlog & Hlast & _).
  cbv zeta in Hlog, Hlast. fold w' in Hlog, Hlast.
  rewrite logged_log in Hlog. cbv zeta in Hlog.
  assert (Hsnoc : ∃ l, smartrace_events_log w' = l ++ [Event (clock w) et (PDict d)]).
  { rewrite Hlog. destruct (Nat.ltb_spec 100 (length (smartrace_events_log w ++
                                       [Event (clock w) et (PDict d)]))) as [Hfull|_];
      [|eauto].
    destruct (smartrace_events_log w) as [|x l]; [cbn in Hfull; lia|].
    exists l. reflexivity. }
  destruct Hsnoc as (l & Hl).
  assert (Hhead : head (recent_events w') = Some (Event (clock w) et (PDict d))).
  { unfold recent_events. rewrite Hl.
    destruct (rev_drop_snoc l (Event (clock w) et (PDict d)) (length (l ++ [Event (clock w) et (PDict d)]) - 5))
      as (rest & Hrev & _).
    - rewrite length_app. cbn [length]. lia.
    - rewrite Hrev. reflexivity. }
  split; [|split; [exact Hhead|congruence]].
  unfold recent_events. rewrite length_rev, length_drop. lia.
Qed.

Lemma newest_event_heads_the_page_witness :
  let w' := run (SmartRaceDataHandler.do_POST lenient (Payload withdraw_event)) window_open in
  head (recent_events w') = Some (Event 5 (PStr "vsc_withdrawn") withdraw_event)
  ∧ length (recent_events w') = 2%nat.
Proof.
  intros w'.
  assert (Het : event_type_of withdraw_event = Ok (PStr "vsc_withdrawn"))
    by (vm_compute; reflexivity).
  destruct (newest_event_heads_the_page lenient _ _ window_open Het) as (_ & Hhead & _).
  split; [exact Hhead|vm_compute; reflexivity].
Defined.

(** ** No thread dies *)

Lemma never_raises_try_except {A : Type} (p : prog A) (h : exn → prog A) :
  (∀ e, never_raises (h e)) → never_raises (try_except p h).
Proof.
  intros Hh. induction p as [a|e|u k IH|d k IH]; cbn [try_except never_raises]; auto.
Qed.

Lemma never_raises_bind {A B : Type} (p : prog A) (g : A → prog B) :
  never_raises p → (∀ a, never_raises (g a)) → never_raises (p ≫= g).
Proof.
  unfold mbind, prog_bind. intros Hp Hg.
  induction p as [a|e|u k IH|d k IH]; cbn [bind never_raises] in *; auto.
Qed.

Lemma monitor_iteration_never_raises : never_raises monitor_iteration.
Proof. apply never_raises_try_except. intros e. exact I. Qed.

Lemma do_POST_never_raises (ftr : float → bool) (r : request) :
  never_raises (SmartRaceDataHandler.do_POST ftr r).
Proof. apply never_raises_try_except. intros e w. exact I. Qed.

Lemma pulse_relay_never_raises (relay_pin : Z) (relay_name source : string) :
  never_raises (pulse_relay relay_pin relay_name source).
Proof.
  unfold pulse_relay. apply never_raises_bind; [intros w; exact I|].
  intros [|]; [|exact I]. apply never_raises_try_except. intros e. exact I.
Qed.

Lemma step_thread_never_raises (th : thread) (w : world) :
  never_raises (code th) → never_raises (code (step_thread th w).1).
Proof.
  intros H. unfold step_thread.
  destruct (wake th) as [t|].
  - destruct (t <=? clock w)%float; exact H.
  - destruct (code th) as [a|e|u k|d k] eqn:E; cbn [fst code never_raises] in *;
      rewrite ?E; cbn [never_raises]; auto.
Qed.

Lemma spawn_healthy (s : system) : healthy s → healthy (spawn s).
Proof.
  intros (Ht & Hs & Hp). unfold healthy, spawn. cbn [timer_thread smartrace_thread pulse_threads].
  repeat split; try assumption.
  apply Forall_app. split; [exact Hp|].
  apply Forall_map, Forall_forall. intros a _. cbn [pulse_thread code].
  apply never_raises_bind; [apply pulse_relay_never_raises|intros b; exact I].
Qed.

Lemma step_healthy (ftr : float → bool) (m : move) (s : system) :
  healthy s → healthy (step ftr m s).
Proof.
  intros H. pose proof H as (Ht & Hs & Hp). unfold step. apply spawn_healthy.
  destruct m as [t|r| | |i].
  - destruct (clock (shared s) <=? t)%float; [|exact H]. exact H.
  - exact H.
  - pose proof (step_thread_never_raises
                  (if finished (timer_thread s) then Thread monitor_iteration None
                   else timer_thread s) (shared s)) as Hstep.
    destruct (step_thread _ (shared s)) as [th' w'].
    split; [|split; assumption]. apply Hstep.
    destruct (finished (timer_thread s)); [apply monitor_iteration_never_raises|exact Ht].
  - destruct (finished (smartrace_thread s)).
    + destruct (backlog s) as [|[r|answer|] rest]; [exact H| | |exact H].
      * split; [exact Ht|]. split; [apply do_POST_never_raises|exact Hp].
      * split; [exact Ht|]. split; [intros w; exact I|exact Hp].
    + pose proof (step_thread_never_raises (smartrace_thread s) (shared s) Hs) as Hstep.
      destruct (step_thread _ (shared s)) as [th' w'].
      split; [exact Ht|]. split; [exact Hstep|exact Hp].
  - destruct (pulse_threads s !! i) as [th|] eqn:Hi; [|exact H].
    pose proof (step_thread_never_raises th (shared s)) as Hstep.
    destruct (step_thread th (shared s)) as [th' w'].
    split; [exact Ht|]. split; [exact Hs|].
    apply Forall_insert; [exact Hp|]. apply Hstep.
    exact (proj1 (Forall_lookup _ _) Hp i th Hi).
Qed.

(** X15.  No thread of the program dies of an exception, in any
    interleaving.  From the state in which [main] starts the threads, after
    any sequence of clock ticks, arriving requests and steps of the timer,
    of the data server and of the pulse threads, every thread is where no
    exception can end it: each turn of the timer, each handler and each pulse
    catches what it raises.  The timer loop in particular never exits. *)
Theorem no_thread_dies (ftr : float → bool) (sched : list move) (w : world) :
  let s := run_schedule ftr sched (boot w) in
  healthy s
  ∧ (∀ e, code (timer_thread s) ≠ Raise e)
  ∧ (∀ e, code (smartrace_thread s) ≠ Raise e)
  ∧ (∀ th e, th ∈ pulse_threads s → code th ≠ Raise e).
Proof.
  cbv zeta.
  assert (H : healthy (run_schedule ftr sched (boot w))).
  { unfold run_schedule.
    assert (H0 : healthy (boot w)) by (repeat split; constructor).
    revert H0. generalize (boot w). induction sched as [|m sched IH]; intros s Hs.
    - exact Hs.
    - cbn [foldl]. apply IH, step_healthy, Hs. }
  split; [exact H|]. destruct H as (Ht & Hs & Hp).
  split; [|split].
  - intros e He. rewrite He in Ht. exact Ht.
  - intros e He. rewrite He in Hs. exact Hs.
  - intros th e Hin He.
    pose proof (proj1 (Forall_forall _ _) Hp th Hin) as Hth. cbv beta in Hth.
    rewrite He in Hth. exact Hth.
Qed.

(** ** The network manager: connecting and scanning *)

(** X16.  [connect_to_wifi] never raises: it returns a pair.  The flag is
    [True] exactly when the first message could be printed, no command
    raised, [con add] exited with 0 and [con up] exited with 0; the exit
    status of [con delete] and of the two [con modify] commands is not looked
    at, so a password or an address that the network manager refused does not
    prevent the report of success.  The function sleeps two seconds when it
    reports success and not otherwise, and it has then run every command of a
    connection, in order. *)
Theorem connect_reports_success_iff (h : wifi_host) (ssid password : string)
    (use_dhcp : bool) (static_ip gateway dns : string) (w : world) :
  let o := exec (connect_to_wifi h ssid password use_dhcp static_ip gateway dns) w in
  ∃ (b : bool) (message : string),
    o.1 = Ok (b, message)
    ∧ (b = true
       ↔ has_surrogate ssid = false
         ∧ is_Some (exit_status h (con_delete ssid))
         ∧ exit_status h (con_add ssid) = Some 0
         ∧ is_Some (exit_status h (con_modify_psk ssid password))
         ∧ (use_dhcp = false
            → is_Some (exit_status h (con_modify_ipv4 ssid static_ip gateway dns)))
         ∧ exit_status h (con_up ssid) = Some 0)
    ∧ clock o.2 = (if b then (clock w + 2)%float else clock w)
    ∧ (b = true →
       commands_run o.2
       = commands_run w
         ++ [con_delete ssid; con_add ssid; con_modify_psk ssid password]
         ++ (if use_dhcp then [] else [con_modify_ipv4 ssid static_ip gateway dns])
         ++ [con_up ssid]
       ∧ message = "Connected successfully to " +:+ ssid).
Proof.
  cbv zeta.
  destruct (connect_to_wifi_exec h ssid password use_dhcp static_ip gateway dns w)
    as (b & message & cmds & Hexec & _ & Hiff & Hsteps & _).
  rewrite Hexec. exists b, message. split; [reflexivity|]. split; [exact Hiff|].
  split; [destruct b; reflexivity|].
  intros Hb. destruct (Hsteps Hb) as (-> & ->). subst b. split; reflexivity.
Qed.

Lemma connect_reports_success_iff_witness :
  let o := exec (connect_to_wifi accepting_wifi "Net" "secret" true "" "" "8.8.8.8")
                idle_world in
  let o' := exec (connect_to_wifi add_refused "Net" "secret" true "" "" "8.8.8.8")
                 idle_world in
  (o.1 = Ok (true, "Connected successfully to Net") ∧ clock o.2 = 2%float
   ∧ commands_run o.2 = [con_delete "Net"; con_add "Net"; con_modify_psk "Net" "secret";
                         con_up "Net"])
  ∧ (∃ message, o'.1 = Ok (false, message)) ∧ clock o'.2 = 0%float.
Proof.
  intros o o'.
  destruct (connect_reports_success_iff accepting_wifi "Net" "secret" true "" "" "8.8.8.8"
              idle_world) as (b & message & Hret & Hiff & Hclock & Hsteps).
  destruct (connect_reports_success_iff add_refused "Net" "secret" true "" "" "8.8.8.8"
              idle_world) as (b' & message' & Hret' & Hiff' & Hclock' & _).
  fold o in Hret, Hclock, Hsteps. fold o' in Hret', Hclock'.
  assert (Hb : b = true).
  { apply Hiff. repeat split; try (vm_compute; eauto; fail). }
  assert (Hb' : b' = false).
  { destruct b'; [|reflexivity]. destruct (proj1 Hiff' eq_refl) as (_ & _ & Hadd & _).
    vm_compute in Hadd. discriminate Hadd. }
  subst b b'. destruct (Hsteps eq_refl) as (Hcmds & ->).
  split; [|split].
  - split; [exact Hret|]. split; [rewrite Hclock; vm_compute; reflexivity|exact Hcmds].
  - exists message'. exact Hret'.
  - exact Hclock'.
Defined.

(** X17.  The commands of [connect_to_wifi] are run in one order: those run
    by a call are the first ones of the sequence delete, add, set the
    password, set the static address (unless DHCP is asked for), bring the
    connection up.  The password is given to the network manager only when
    [con add] has exited with 0. *)
Theorem connect_commands_in_order (h : wifi_host) (ssid password : string)
    (use_dhcp : bool) (static_ip gateway dns : string) (w : world) :
  let w' := run (connect_to_wifi h ssid password use_dhcp static_ip gateway dns) w in
  ∃ cmds,
    commands_run w' = commands_run w ++ cmds
    ∧ cmds `prefix_of`
        [con_delete ssid; con_add ssid; con_modify_psk ssid password]
        ++ (if use_dhcp then [] else [con_modify_ipv4 ssid static_ip gateway dns])
        ++ [con_up ssid]
    ∧ (con_modify_psk ssid password ∈ cmds → exit_status h (con_add ssid) = Some 0).
Proof.
  cbv zeta. unfold run.
  destruct (connect_to_wifi_exec h ssid password use_dhcp static_ip gateway dns w)
    as (b & message & cmds & Hexec & Hprefix & _ & _ & Hpsk).
  rewrite Hexec. exists cmds. split; [destruct b; reflexivity|].
  split; [exact Hprefix|exact Hpsk].
Qed.

Lemma connect_commands_in_order_witness :
  con_modify_psk "Net" "secret"
  ∉ commands_run (run (connect_to_wifi add_refused "Net" "secret" false "10.0.0.2/24"
                         "10.0.0.1" "8.8.8.8") idle_world).
Proof.
  destruct (connect_commands_in_order add_refused "Net" "secret" false "10.0.0.2/24"
              "10.0.0.1" "8.8.8.8" idle_world) as (cmds & Hcmds & _ & Hpsk).
  rewrite Hcmds. intros Hin. cbn [commands_run idle_world initial_world app] in Hin.
  specialize (Hpsk Hin). vm_compute in Hpsk. discriminate Hpsk.
Defined.

Lemma str_split_from_fields (field s : text) :
  Forall (λ c, isspace c = false) field → Forall is_field (str_split_from field s).
Proof.
  revert field. induction s as [|c s IH]; intros field Hfield; cbn [str_split_from].
  - destruct field as [|x field]; [constructor|].
    constructor; [|constructor]. split.
    + intros H. apply (f_equal length) in H. rewrite length_rev in H. discriminate H.
    + apply Forall_rev, Hfield.
  - destruct (isspace c) eqn:Hc.
    + destruct field as [|x field]; [apply IH; constructor|].
      constructor; [|apply IH; constructor]. split.
      * intros H. apply (f_equal length) in H. rewrite length_rev in H. discriminate H.
      * apply Forall_rev, Hfield.
    + apply IH. constructor; assumption.
Qed.

Lemma str_split_fields (s : text) : Forall is_field (str_split s).
Proof. apply str_split_from_fields. constructor. Qed.

Lemma str_lstrip_empty (s : text) : str_lstrip s = [] → Forall (λ c, isspace c = true) s.
Proof.
  induction s as [|c s IH]; cbn [str_lstrip]; [constructor|].
  destruct (isspace c) eqn:Hc; [|discriminate]. intros H. constructor; auto.
Qed.

Lemma str_lstrip_blank (s : text) : Forall (λ c, isspace c = true) s → str_lstrip s = [].
Proof.
  induction 1 as [|c s Hc _ IH]; cbn [str_lstrip]; [reflexivity|]. rewrite Hc. exact IH.
Qed.

Lemma str_split_blank (s : text) : Forall (λ c, isspace c = true) s → str_split_from [] s = [].
Proof.
  induction 1 as [|c s Hc _ IH]; cbn [str_split_from]; [reflexivity|]. rewrite Hc. exact IH.
Qed.

(** A line that [strip] empties has no field. *)
Lemma str_strip_empty (s : text) : str_strip s = [] → str_split s = [].
Proof.
  unfold str_strip, str_split. intros H.
  apply (f_equal (@rev N)) in H. rewrite rev_involutive in H. cbn [rev] in H.
  apply str_lstrip_empty in H. apply Forall_rev in H. rewrite rev_involutive in H.
  apply str_lstrip_blank in H.
  assert (Hidem : str_lstrip (str_lstrip s) = str_lstrip s).
  { clear H. induction s as [|c s IH]; [reflexivity|]. cbn [str_lstrip].
    destruct (isspace c) eqn:Hc; [exact IH|]. cbn [str_lstrip]. rewrite Hc. reflexivity. }
  rewrite Hidem in H. apply str_split_blank, str_lstrip_empty, H.
Qed.

Lemma signal_of_no_percent (parts : list text) : percent ∉ signal_of parts.
Proof.
  unfold signal_of. destruct (list_find _ parts) as [[i part]|].
  - intros H. apply list_elem_of_filter in H. destruct H as [H _]. apply H. reflexivity.
  - intros H. vm_compute in H. apply list_elem_of_singleton in H. discriminate H.
Qed.

Lemma scan_line_entry (line : text) (n : network) :
  scan_line line = Ok (Some n) →
  ssid n ∈ str_split line ∧ signal n = signal_of (str_split line)
  ∧ in_use n = bool_decide (star ∈ line).
Proof.
  unfold scan_line. destruct (str_strip line); [discriminate|].
  destruct (2 <=? length (str_split line))%nat; [|discriminate].
  destruct (bool_decide (star ∈ line)); unfold item;
    [destruct (str_split line !! 2%nat) as [x|] eqn:E
    |destruct (str_split line !! 1%nat) as [x|] eqn:E];
    cbn; intros H; inversion H; subst; cbn;
    (split; [eapply list_elem_of_lookup_2; exact E|split; reflexivity]).
Qed.

Lemma scan_lines_entries (P : network → Prop) (lines : list text) :
  (∀ line n, line ∈ lines → scan_line line = Ok (Some n) → P n) →
  ∀ networks found, Forall P networks → scan_lines networks lines = Ok found →
  Forall P found.
Proof.
  induction lines as [|line lines IH]; intros Hline networks found Hn; cbn [scan_lines].
  - intros H. inversion H. subst. exact Hn.
  - destruct (scan_line line) as [entry|e] eqn:E; [|discriminate]. cbn.
    apply IH.
    + intros l n Hl. apply Hline. right. exact Hl.
    + apply Forall_app. split; [exact Hn|].
      destruct entry as [n|]; [|constructor]. constructor; [|constructor].
      apply (Hline line n); [left|exact E].
Qed.

Lemma scan_lines_raises (line : text) (e : exn) (lines : list text) :
  line ∈ lines → scan_line line = Raised e →
  ∀ networks, ∃ e', scan_lines networks lines = Raised e'.
Proof.
  intros Hin Hline. induction lines as [|l lines IH]; intros networks.
  - inversion Hin.
  - cbn [scan_lines]. destruct (scan_line l) as [entry|e'] eqn:E.
    + cbn. apply IH. inversion Hin; subst; [congruence|assumption].
    + exists e'. reflexivity.
Qed.

(** X18.  Every entry that [scan_wifi_networks] returns, whatever [nmcli]
    printed, names a network by one field of a line: the name is not empty
    and has no white space in it, so a network whose name has a space in it
    is never reported under its full name; and the signal has no percent sign
    left. *)
Theorem scanned_names_are_single_fields (nmcli_wifi_list : result (Z * text)) :
  Forall (λ n, is_field (ssid n) ∧ percent ∉ signal n)
         (scan_wifi_networks nmcli_wifi_list).
Proof.
  unfold scan_wifi_networks.
  destruct nmcli_wifi_list as [[rc out]|e]; cbn; [|constructor].
  destruct (rc =? 0); [|constructor].
  destruct (scan_lines [] _) as [found|e] eqn:E; [|constructor].
  eapply scan_lines_entries; [|constructor|exact E].
  intros line n _ Hn. apply scan_line_entry in Hn. destruct Hn as (Hs & Hsig & _).
  split.
  - exact (proj1 (Forall_forall _ _) (str_split_fields line) _ Hs).
  - rewrite Hsig. apply signal_of_no_percent.
Qed.

(** X19.  One short line loses the whole scan.  When a line of the output
    after the header has a star in it and exactly two fields, [parts[2]]
    raises [IndexError] (line 168), the handler of line 182 catches it and the
    function returns the empty list, whatever the other lines hold. *)
Theorem short_starred_line_empties_scan (out line : text) :
  line ∈ drop 1 (str_split_at newline out) →
  star ∈ line → length (str_split line) = 2%nat →
  scan_wifi_networks (Ok (0, out)) = [].
Proof.
  intros Hin Hstar Hlen.
  assert (Hline : scan_line line = Raised IndexError).
  { unfold scan_line. destruct (str_strip line) eqn:Hs.
    - apply str_strip_empty in Hs. rewrite Hs in Hlen. discriminate Hlen.
    - rewrite Hlen. cbn [Nat.leb]. rewrite bool_decide_eq_true_2 by exact Hstar.
      unfold item. rewrite lookup_ge_None_2 by lia. reflexivity. }
  unfold scan_wifi_networks. cbn.
  destruct (scan_lines_raises line _ _ Hin Hline []) as [e' He']. rewrite He'.
  reflexivity.
Qed.

Lemma short_starred_line_empties_scan_witness :
  scan_wifi_networks (Ok (0, short_scan)) = [].
Proof.
  apply (short_starred_line_empties_scan short_scan (text_of "* Home")).
  - vm_compute. apply list_elem_of_here.
  - vm_compute. apply list_elem_of_here.
  - vm_compute. reflexivity.
Defined.
